(** * The camera screen of the image-classification app (CameraApp.tsx)

    A shallow embedding of the screen component [CameraExample]: its four
    state variables, its handlers ([handleFrame], [classifier],
    [handleCapture], [handlePressReturn], [backAction]) and the way the
    asynchronous handlers interleave with the user's actions.

    Handlers are written as small programs over the effects the source
    performs: state setters, [image.release()], the alert, and the three
    awaited calls into the native library.  Two semantics are given to the
    same programs: [run], which runs one handler to completion against fixed
    answers of the native library, and [step], a labelled transition system
    in which a handler is suspended at each [await] and other callbacks may
    run meanwhile.

    JavaScript numbers: [maxIdx] is modelled as an integer, a confidence as
    the exact rational value of a finite double.  Line 124,
    [Math.round(confidence * 1000) / 10], is given twice: [classRow]
    evaluates it in exact arithmetic and serves where only the order, the
    label and the metrics of a row matter; [classRow64] evaluates it in
    binary64 arithmetic ([round64]: 53 significant bits, round to nearest,
    ties to even) and serves where the number itself matters. *)

From Stdlib Require Import List String ZArith QArith Qround Qabs Qpower.
From Stdlib Require Import Bool Lia Lqa.
From Stdlib Require PrimFloat FloatOps SpecFloat.
Import ListNotations.

Set Implicit Arguments.
Close Scope Q_scope.

(** ** Data *)

(** A camera frame or photo: the handle of a native image. *)
Definition Image := nat.

(** [ModelInfo] of react-native-pytorch-core: a display name and the
    location of the model file. *)
Definition ModelPath := string.

Record ModelInfo := { name : string; model : ModelPath }.

(** [ModelResultMetrics] of react-native-pytorch-core (times in ms). *)
Record ModelResultMetrics := {
  totalTime : Z;
  packTime : Z;
  inferenceTime : Z;
  unpackTime : Z
}.

(** What [MobileModel.execute<ImageClassificationResult>] resolves with:
    [{result: {maxIdx, confidence}, metrics}]. *)
Record ExecuteOutput := {
  res_maxIdx : Z;
  res_confidence : Q;
  res_metrics : ModelResultMetrics
}.

(** One row of [classesInfo].  [className] is [None] when the label lookup
    gave [undefined]. *)
Record ClassInfo := {
  className : option string;
  confidence : Q;
  metrics : ModelResultMetrics
}.

(** The state variables of [CameraExample] (the four [useState] cells).
    [activeModelInfo] is [None] when [ImageClassificationModels[0]] is
    [undefined]. *)
Record AppState := {
  activeModelInfo : option ModelInfo;
  isCaptured : bool;
  currImage : string;
  classesInfo : list ClassInfo
}.

(** The two screen states of the specification, read off [isCaptured]. *)
Inductive ScreenState := LivePreview | Captured.

Definition screen (st : AppState) : ScreenState :=
  if isCaptured st then Captured else LivePreview.

(** ** JavaScript helpers *)

(** [Math.round]: the nearest integer, halves rounded up. *)
Definition Math_round (x : Q) : Z := Qfloor (x + (1 # 2)).

(** [arr[i]] for a number [i]: [undefined] outside the array. *)
Definition js_index {A : Type} (arr : list A) (i : Z) : option A :=
  if (i <? 0)%Z then None else nth_error arr (Z.to_nat i).

(** ** Effects *)

(** The two [onPress] closures of the quit dialog:
    [() => null] and [() => BackHandler.exitApp()]. *)
Inductive Callback := cb_null | cb_exitApp.

Record AlertButton := {
  text : string;
  style : option string;
  onPress : Callback
}.

(** Synchronous effects. *)
Inductive Action :=
| image_release (image : Image)
| setActiveModelInfo (mi : ModelInfo)
| setIsCaptured (b : bool)
| setCurrImage (s : string)
| setClassesInfo (classes : list ClassInfo)
| Alert_alert (title message : string) (buttons : list AlertButton)
| BackHandler_exitApp.

(** Awaited calls: [ImageUtil.toFile(img)], [MobileModel.execute(model,
    {image})] and the [processImage] of [useImageModelInference], which is
    bound to the model selected at render time. *)
Inductive Call :=
| ImageUtil_toFile (img : Image)
| MobileModel_execute (m : ModelPath) (image : Image)
| processImage (active : option ModelInfo) (image : Image).

(** A handler: effects in program order.  [Throw] is a thrown [TypeError];
    an [Await...] node is suspended until its promise settles and is
    abandoned when the promise rejects (there is no [try] in the source). *)
Inductive Prog (A : Type) : Type :=
| Ret (a : A)
| Throw
| Do (a : Action) (k : Prog A)
| AwaitToFile (img : Image) (k : string -> Prog A)
| AwaitExecute (m : ModelPath) (image : Image) (k : ExecuteOutput -> Prog A)
| AwaitProcessImage (active : option ModelInfo) (image : Image) (k : Prog A).

Arguments Throw {A}.

Fixpoint bind {A B : Type} (p : Prog A) (f : A -> Prog B) : Prog B :=
  match p with
  | Ret a => f a
  | Throw => Throw
  | Do a k => Do a (bind k f)
  | AwaitToFile img k => AwaitToFile img (fun path => bind (k path) f)
  | AwaitExecute m image k => AwaitExecute m image (fun out => bind (k out) f)
  | AwaitProcessImage mi image k => AwaitProcessImage mi image (bind k f)
  end.

Notation "x <- p ;; q" := (bind p (fun x => q))
  (at level 61, p at next level, right associativity).

(** What has happened so far, oldest first. *)
Inductive Event :=
| EvDo (a : Action)
| EvCall (c : Call).

(** The screen together with what surrounds it: the open alert, whether the
    process has exited, and the history. *)
Record Machine := {
  app : AppState;
  alert : option (list AlertButton);
  exited : bool;
  log : list Event
}.

Definition record (e : Event) (m : Machine) : Machine :=
  {| app := app m; alert := alert m; exited := exited m;
     log := log m ++ [e] |}.

Definition with_app (st : AppState) (m : Machine) : Machine :=
  {| app := st; alert := alert m; exited := exited m; log := log m |}.

Definition update (a : Action) (st : AppState) : AppState :=
  match a with
  | setActiveModelInfo mi =>
      {| activeModelInfo := Some mi; isCaptured := isCaptured st;
         currImage := currImage st; classesInfo := classesInfo st |}
  | setIsCaptured b =>
      {| activeModelInfo := activeModelInfo st; isCaptured := b;
         currImage := currImage st; classesInfo := classesInfo st |}
  | setCurrImage s =>
      {| activeModelInfo := activeModelInfo st; isCaptured := isCaptured st;
         currImage := s; classesInfo := classesInfo st |}
  | setClassesInfo classes =>
      {| activeModelInfo := activeModelInfo st; isCaptured := isCaptured st;
         currImage := currImage st; classesInfo := classes |}
  | image_release _ | Alert_alert _ _ _ | BackHandler_exitApp => st
  end.

Definition perform (a : Action) (m : Machine) : Machine :=
  let m' := with_app (update a (app m)) (record (EvDo a) m) in
  match a with
  | Alert_alert _ _ buttons =>
      {| app := app m'; alert := Some buttons; exited := exited m';
         log := log m' |}
  | BackHandler_exitApp =>
      {| app := app m'; alert := alert m'; exited := true; log := log m' |}
  | _ => m'
  end.

(** ** Running one handler to completion

    The native library as seen from one handler run: what each awaited call
    resolves with, [None] (or [false]) standing for a rejected promise. *)
Record World := {
  toFile_result : Image -> option string;
  execute_result : ModelPath -> Image -> option ExecuteOutput;
  processImage_ok : option ModelInfo -> Image -> bool
}.

(** The value the handler's promise resolves with ([None] when it rejects)
    and the machine it leaves. *)
Fixpoint run {A : Type} (w : World) (p : Prog A) (m : Machine)
    : option A * Machine :=
  match p with
  | Ret a => (Some a, m)
  | Throw => (None, m)
  | Do a k => run w k (perform a m)
  | AwaitToFile img k =>
      let m' := record (EvCall (ImageUtil_toFile img)) m in
      match toFile_result w img with
      | Some path => run w (k path) m'
      | None => (None, m')
      end
  | AwaitExecute mp image k =>
      let m' := record (EvCall (MobileModel_execute mp image)) m in
      match execute_result w mp image with
      | Some out => run w (k out) m'
      | None => (None, m')
      end
  | AwaitProcessImage mi image k =>
      let m' := record (EvCall (processImage mi image)) m in
      if processImage_ok w mi image then run w k m' else (None, m')
  end.

(** Observations on a history. *)
Definition is_release (image : Image) (e : Event) : bool :=
  match e with
  | EvDo (image_release i) => Nat.eqb i image
  | _ => false
  end.

Definition releases (image : Image) (l : list Event) : nat :=
  List.length (filter (is_release image) l).

Definition is_processImage (e : Event) : bool :=
  match e with
  | EvCall (processImage _ _) => true
  | _ => false
  end.





(** ** The component *)

Section CameraExample.

(** The two tables the component imports; their files are not part of the
    sources at hand. *)
Variable ImageClassificationModels : list ModelInfo.
Variable MobileNetV3Classes : list string.

(** The state after the first render. *)
Definition initialState : AppState :=
  {| activeModelInfo := nth_error ImageClassificationModels 0;
     isCaptured := false;
     currImage := EmptyString;
     classesInfo := [] |}.

Definition handleFrame (st : AppState) (image : Image) : Prog unit :=
  if isCaptured st then
    Do (image_release image) (Ret tt)
  else
    AwaitProcessImage (activeModelInfo st) image
      (Do (image_release image) (Ret tt)).

(** The row pushed for one model's answer. *)
Definition classRow (out : ExecuteOutput) : ClassInfo :=
  {| className := js_index MobileNetV3Classes (res_maxIdx out);
     confidence :=
       (inject_Z (Math_round (res_confidence out * 1000)) / 10)%Q;
     metrics := res_metrics out |}.

(** [for (let i = 0; i < 3; i++)]: [todo] iterations remain, the next one
    is number [i].  Reading [.model] of a missing registry entry throws. *)
Fixpoint classifier_loop (todo i : nat) (image : Image)
    (classes : list ClassInfo) : Prog (list ClassInfo) :=
  match todo with
  | O => Ret classes
  | S todo' =>
      match nth_error ImageClassificationModels i with
      | None => Throw
      | Some mi =>
          AwaitExecute (model mi) image (fun out =>
            classifier_loop todo' (S i) image (classes ++ [classRow out]))
      end
  end.

Definition classifier (image : Image) : Prog (list ClassInfo) :=
  classifier_loop 3 0 image [].

Definition handleCapture (img : Image) : Prog unit :=
  AwaitToFile img (fun path =>
    let imagePath := ("file://" ++ path)%string in
    Do (setIsCaptured true)
      (Do (setCurrImage imagePath)
         (classes <- classifier img ;;
          Do (setClassesInfo classes)
            (Do (image_release img) (Ret tt))))).

Definition handlePressReturn : Prog unit :=
  Do (setClassesInfo [])
    (Do (setCurrImage EmptyString)
       (Do (setIsCaptured false) (Ret tt))).

Definition quitButtons : list AlertButton :=
  [ {| text := "Cancel"; style := Some "cancel"%string; onPress := cb_null |};
    {| text := "YES"; style := None; onPress := cb_exitApp |} ].

Definition backAction (st : AppState) : Prog bool :=
  if isCaptured st then
    _ <- handlePressReturn ;; Ret true
  else
    Do (Alert_alert "Hold on!" "Are you sure you want to quit?" quitButtons)
      (Ret true).

Definition runCallback (cb : Callback) : Prog unit :=
  match cb with
  | cb_null => Ret tt
  | cb_exitApp => Do BackHandler_exitApp (Ret tt)
  end.

(** ** Interleaving

    A handler that reaches an [await] is parked as a task until the
    environment settles its promise; user actions and other callbacks run in
    between.  [origin] remembers which callback started the task and
    [started_in] the screen state it was started in. *)
Inductive Origin := FromFrame | FromCapture.

Record Task := {
  origin : Origin;
  started_in : ScreenState;
  suspended : Prog unit
}.

Record Sys := { machine : Machine; tasks : list Task }.

(** Run the synchronous part of a handler: up to its next [await], or to
    its end. *)
Fixpoint advance {A : Type} (p : Prog A) (m : Machine)
    : Machine * option (Prog A) :=
  match p with
  | Ret _ | Throw => (m, None)
  | Do a k => advance k (perform a m)
  | AwaitToFile img _ =>
      (record (EvCall (ImageUtil_toFile img)) m, Some p)
  | AwaitExecute mp image _ =>
      (record (EvCall (MobileModel_execute mp image)) m, Some p)
  | AwaitProcessImage mi image _ =>
      (record (EvCall (processImage mi image)) m, Some p)
  end.

(** Start an asynchronous handler. *)
Definition spawn (o : Origin) (p : Prog unit) (s : Sys) : Sys :=
  match advance p (machine s) with
  | (m, Some p') =>
      {| machine := m;
         tasks := tasks s ++
           [ {| origin := o; started_in := screen (app (machine s));
                suspended := p' |} ] |}
  | (m, None) => {| machine := m; tasks := tasks s |}
  end.

(** Run a handler that never awaits. *)
Definition call {A : Type} (p : Prog A) (s : Sys) : Sys :=
  {| machine := fst (advance p (machine s)); tasks := tasks s |}.

Fixpoint remove_nth (n : nat) (l : list Task) : list Task :=
  match n, l with
  | _, [] => []
  | O, _ :: l' => l'
  | S n', t :: l' => t :: remove_nth n' l'
  end.

Fixpoint replace_nth (n : nat) (t : Task) (l : list Task) : list Task :=
  match n, l with
  | _, [] => []
  | O, _ :: l' => t :: l'
  | S n', t' :: l' => t' :: replace_nth n' t l'
  end.

(** Task [n], which is [t], goes on with continuation [k]. *)
Definition resume (n : nat) (t : Task) (k : Prog unit) (s : Sys) : Sys :=
  match advance k (machine s) with
  | (m, Some p') =>
      {| machine := m;
         tasks := replace_nth n
                    {| origin := origin t; started_in := started_in t;
                       suspended := p' |} (tasks s) |}
  | (m, None) => {| machine := m; tasks := remove_nth n (tasks s) |}
  end.

(** What can happen next: a callback of the camera, a press on a control
    that the current render shows, or the settling of task [n]'s promise. *)
Inductive Label :=
| onFrame (image : Image)
| onCapture (img : Image)
| pressReturn
| hardwareBackPress
| onSelectModelInfo (mi : ModelInfo)
| pressAlertButton (n : nat)
| resolveToFile (n : nat) (path : string)
| resolveExecute (n : nat) (out : ExecuteOutput)
| resolveProcessImage (n : nat)
| reject (n : nat).

(** The camera and the model selector are rendered only while
    [isCaptured] is false, the Return button only while it is true; frames
    are accepted in both states, as [handleFrame] provides for. *)
Definition step (l : Label) (s : Sys) : option Sys :=
  if exited (machine s) then None else
  let st := app (machine s) in
  match l with
  | onFrame image => Some (spawn FromFrame (handleFrame st image) s)
  | onCapture img =>
      if isCaptured st then None
      else Some (spawn FromCapture (handleCapture img) s)
  | pressReturn =>
      if isCaptured st then Some (call handlePressReturn s) else None
  | hardwareBackPress => Some (call (backAction st) s)
  | onSelectModelInfo mi =>
      if isCaptured st then None
      else Some (call (Do (setActiveModelInfo mi) (Ret tt)) s)
  | pressAlertButton n =>
      match alert (machine s) with
      | Some buttons =>
          match nth_error buttons n with
          | Some b =>
              let m := machine s in
              let closed :=
                {| machine := {| app := app m; alert := None;
                                 exited := exited m; log := log m |};
                   tasks := tasks s |} in
              Some (call (runCallback (onPress b)) closed)
          | None => None
          end
      | None => None
      end
  | resolveToFile n path =>
      match nth_error (tasks s) n with
      | Some t =>
          match suspended t with
          | AwaitToFile _ k => Some (resume n t (k path) s)
          | _ => None
          end
      | None => None
      end
  | resolveExecute n out =>
      match nth_error (tasks s) n with
      | Some t =>
          match suspended t with
          | AwaitExecute _ _ k => Some (resume n t (k out) s)
          | _ => None
          end
      | None => None
      end
  | resolveProcessImage n =>
      match nth_error (tasks s) n with
      | Some t =>
          match suspended t with
          | AwaitProcessImage _ _ k => Some (resume n t k s)
          | _ => None
          end
      | None => None
      end
  | reject n =>
      match nth_error (tasks s) n with
      | Some _ => Some {| machine := machine s;
                          tasks := remove_nth n (tasks s) |}
      | None => None
      end
  end.

Definition initialMachine : Machine :=
  {| app := initialState; alert := None; exited := false; log := [] |}.

Definition initialSys : Sys := {| machine := initialMachine; tasks := [] |}.

(** Follow a sequence of labels; [None] when one of them is not enabled. *)
Fixpoint steps (ls : list Label) (s : Sys) : option Sys :=
  match ls with
  | [] => Some s
  | l :: ls' =>
      match step l s with
      | Some s' => steps ls' s'
      | None => None
      end
  end.

Definition reachable (s : Sys) : Prop :=
  exists ls, steps ls initialSys = Some s.

(** The tasks that can be in flight: a frame waiting for [processImage], a
    capture waiting for its file, a capture waiting for a model. *)
Inductive known_task : Task -> Prop :=
| kt_frame (scr : ScreenState) (mi : option ModelInfo) (image : Image) :
    known_task
      {| origin := FromFrame; started_in := scr;
         suspended :=
           AwaitProcessImage mi image (Do (image_release image) (Ret tt)) |}
| kt_toFile (img : Image) :
    known_task
      {| origin := FromCapture; started_in := LivePreview;
         suspended := handleCapture img |}
| kt_execute (img : Image) (todo i : nat) (classes : list ClassInfo)
    (mi : ModelInfo) :
    known_task
      {| origin := FromCapture; started_in := LivePreview;
         suspended :=
           AwaitExecute (model mi) img (fun out =>
             classes' <-
               classifier_loop todo i img (classes ++ [classRow out]) ;;
             Do (setClassesInfo classes')
               (Do (image_release img) (Ret tt))) |}.

Definition well_formed (s : Sys) : Prop := Forall known_task (tasks s).

(** A task that is waiting for a model. *)
Definition classifying (t : Task) : bool :=
  match suspended t with
  | AwaitExecute _ _ _ => true
  | _ => false
  end.

Definition is_return (l : Label) : bool :=
  match l with
  | pressReturn | hardwareBackPress => true
  | _ => false
  end.

(** Step [l] from [s] leaves the result screen while a classification is
    still running. *)
Definition cuts_classification (l : Label) (s : Sys) : bool :=
  is_return l && isCaptured (app (machine s)) &&
  existsb classifying (tasks s).

(** No step of the run [ls] from [s] cuts a classification short. *)
Fixpoint patient (ls : list Label) (s : Sys) : bool :=
  match ls with
  | [] => true
  | l :: ls' =>
      negb (cuts_classification l s) &&
      match step l s with
      | Some s' => patient ls' s'
      | None => true
      end
  end.

End CameraExample.

(** ** Sample data, used to exercise the theorems *)

Definition sampleModels : list ModelInfo :=
  [ {| name := "MobileNet V3 Small"%string; model := "mobilenet_v3_small.ptl"%string |};
    {| name := "MobileNet V3 Large"%string; model := "mobilenet_v3_large.ptl"%string |};
    {| name := "ResNet 18"%string; model := "resnet18.ptl"%string |} ].

Definition sampleClasses : list string :=
  [ "tench"; "goldfish"; "great white shark" ]%string.

Definition sampleMetrics : ModelResultMetrics :=
  {| totalTime := 41; packTime := 3; inferenceTime := 36; unpackTime := 2 |}.

(** A model answer with a label that the table knows. *)
Definition sampleOutput : ExecuteOutput :=
  {| res_maxIdx := 1; res_confidence := 8734 # 10000;
     res_metrics := sampleMetrics |}.

(** A model answer whose index is past the end of the table. *)
Definition strayOutput : ExecuteOutput :=
  {| res_maxIdx := 3; res_confidence := 1 # 2;
     res_metrics := sampleMetrics |}.

(** Every call resolves. *)
Definition sampleWorld : World :=
  {| toFile_result := fun _ => Some "/tmp/photo.png"%string;
     execute_result := fun _ _ => Some sampleOutput;
     processImage_ok := fun _ _ => true |}.

(** Every call resolves, the models answer with a stray index. *)
Definition strayWorld : World :=
  {| toFile_result := fun _ => Some "/tmp/photo.png"%string;
     execute_result := fun _ _ => Some strayOutput;
     processImage_ok := fun _ _ => true |}.

(** The photo is written, but every inference call rejects. *)
Definition failingWorld : World :=
  {| toFile_result := fun _ => Some "/tmp/photo.png"%string;
     execute_result := fun _ _ => None;
     processImage_ok := fun _ _ => false |}.

Definition sampleMachine : Machine :=
  initialMachine sampleModels.

(** The machine while a result is on show. *)
Definition capturedMachine : Machine :=
  snd (run sampleWorld (handleCapture sampleModels sampleClasses 7)
         sampleMachine).

(** The app while a result is on show, nothing in flight. *)
Definition capturedSys : Sys := {| machine := capturedMachine; tasks := [] |}.

Definition resnet : ModelInfo :=
  {| name := "ResNet 18"%string; model := "resnet18.ptl"%string |}.

(** Capture, wait for the three rows, then Return. *)
Definition patientRun : list Label :=
  [ onCapture 7; resolveToFile 0 "/tmp/photo.png"%string;
    resolveExecute 0 sampleOutput; resolveExecute 0 sampleOutput;
    resolveExecute 0 sampleOutput; pressReturn ].

(** Capture, then Return while the classification is still running. *)
Definition hastyReturn : list Label :=
  [ onCapture 7; resolveToFile 0 "/tmp/photo.png"%string; pressReturn;
    resolveExecute 0 sampleOutput; resolveExecute 0 sampleOutput;
    resolveExecute 0 sampleOutput ].

(** ** Properties of a handler run, as predicates *)

(** The state [handlePressReturn] leaves. *)
Definition cleared (st : AppState) : AppState :=
  {| activeModelInfo := activeModelInfo st; isCaptured := false;
     currImage := EmptyString; classesInfo := [] |}.

(** Running [p] from [m] calls [image.release()] exactly once. *)
Definition released_once (A : Type) (w : World) (p : Prog A) (m : Machine)
    (image : Image) : Prop :=
  exists tr, log (snd (run w p m)) = log m ++ tr /\ releases image tr = 1.



(** In LivePreview there is no result list and no image path. *)
Definition preview_is_clean (st : AppState) : Prop :=
  isCaptured st = false ->
  classesInfo st = [] /\ currImage st = EmptyString.

(** Two machines that differ at most in the selected model and in what
    happened before. *)
Definition same_but_selection (m1 m2 : Machine) : Prop :=
  isCaptured (app m1) = isCaptured (app m2) /\
  currImage (app m1) = currImage (app m2) /\
  classesInfo (app m1) = classesInfo (app m2) /\
  alert m1 = alert m2 /\
  exited m1 = exited m2.

(** [q] is the confidence [c] as a percentage with one decimal: a whole
    number of tenths, between 0 and 100, nearest to [100 * c]. *)
Definition one_decimal_percentage (c q : Q) : Prop :=
  exists k : Z,
    (0 <= k <= 1000)%Z /\
    (q == k # 10)%Q /\
    (0 <= q <= 100)%Q /\
    (Qabs (q - 100 * c) <= 1 # 20)%Q.

(** ** What one step does, label by label *)

(** No task of [s'] is waiting for a model unless one of [s] was. *)
Definition quiet (s s' : Sys) : Prop :=
  Forall (fun t => classifying t = false) (tasks s) ->
  Forall (fun t => classifying t = false) (tasks s').

Definition step_effect (l : Label) (s s' : Sys) : Prop :=
  let st := app (machine s) in
  let st' := app (machine s') in
  match l with
  | onFrame _ | pressAlertButton _ | resolveProcessImage _ | reject _ =>
      st' = st /\ quiet s s'
  | onCapture _ =>
      isCaptured st = false /\ st' = st /\ quiet s s'
  | pressReturn =>
      isCaptured st = true /\ st' = cleared st /\ tasks s' = tasks s
  | hardwareBackPress =>
      tasks s' = tasks s /\
      (if isCaptured st then st' = cleared st else st' = st)
  | onSelectModelInfo mi =>
      isCaptured st = false /\
      st' = update (setActiveModelInfo mi) st /\
      tasks s' = tasks s
  | resolveToFile n _ =>
      isCaptured st' = true /\
      exists t, nth_error (tasks s) n = Some t /\
                origin t = FromCapture /\ started_in t = LivePreview
  | resolveExecute n _ =>
      isCaptured st' = isCaptured st /\
      currImage st' = currImage st /\
      exists t, nth_error (tasks s) n = Some t /\ classifying t = true
  end.

(** ** Further vocabulary: the classifier's calls, tasks in flight, the view *)

(** The call the classifier makes for registry entry [mi]. *)
Definition call_of (image : Image) (mi : ModelInfo) : Event :=
  EvCall (MobileModel_execute (model mi) image).

(** Registry entry [i] exists and its model answers for [image]. *)
Definition answers (models : list ModelInfo) (w : World) (image : Image)
    (i : nat) : Prop :=
  exists mi out,
    nth_error models i = Some mi /\
    execute_result w (model mi) image = Some out.

(** Every call resolves except the second model's. *)
Definition secondRejects : World :=
  {| toFile_result := toFile_result sampleWorld;
     execute_result := fun mp _ =>
       if String.eqb mp "mobilenet_v3_large.ptl"
       then None else Some sampleOutput;
     processImage_ok := processImage_ok sampleWorld |}.

(** The three kinds of task, by name. *)
Definition frameTask (scr : ScreenState) (active : option ModelInfo)
    (image : Image) : Task :=
  {| origin := FromFrame; started_in := scr;
     suspended :=
       AwaitProcessImage active image (Do (image_release image) (Ret tt)) |}.

Definition captureTask (p : Prog unit) : Task :=
  {| origin := FromCapture; started_in := LivePreview; suspended := p |}.

(** [handleCapture] parked at the call to model [mi]; [classes] are the
    rows pushed so far, and after this call the loop has [todo] more
    iterations, starting with number [next]. *)
Definition awaitingModel (models : list ModelInfo) (table : list string)
    (img : Image) (todo next : nat) (classes : list ClassInfo)
    (mi : ModelInfo) : Prog unit :=
  AwaitExecute (model mi) img (fun out =>
    classes' <-
      classifier_loop models table todo next img
        (classes ++ [classRow table out]) ;;
    Do (setClassesInfo classes') (Do (image_release img) (Ret tt))).

(** A row that the classifier built from some model answer. *)
Definition is_row (table : list string) (c : ClassInfo) : Prop :=
  exists out, c = classRow table out.

(** The tasks of the running app, with the loop bookkeeping: a capture
    waiting for model [i] has pushed [i] rows and has [2 - i] iterations
    left after this one. *)
Inductive scheduled_task (models : list ModelInfo) (table : list string)
    : Task -> Prop :=
| sch_frame (scr : ScreenState) (active : option ModelInfo) (image : Image) :
    scheduled_task models table (frameTask scr active image)
| sch_toFile (img : Image) :
    scheduled_task models table (captureTask (handleCapture models table img))
| sch_execute (img : Image) (todo i : nat) (classes : list ClassInfo)
    (mi : ModelInfo) :
    i + todo = 2 ->
    List.length classes = i ->
    Forall (is_row table) classes ->
    nth_error models i = Some mi ->
    scheduled_task models table
      (captureTask (awaitingModel models table img todo (S i) classes mi)).

(** The machine once the alert has been dismissed. *)
Definition alertClosed (m : Machine) : Machine :=
  {| app := app m; alert := None; exited := exited m; log := log m |}.

(** What each step does to a state whose tasks are scheduled, outcome by
    outcome. *)
Inductive occurs (models : list ModelInfo) (table : list string)
    : Label -> Sys -> Sys -> Prop :=
| oc_frame_skipped (image : Image) (s : Sys) :
    isCaptured (app (machine s)) = true ->
    occurs models table (onFrame image) s
      {| machine := perform (image_release image) (machine s);
         tasks := tasks s |}
| oc_frame_parked (image : Image) (s : Sys) :
    isCaptured (app (machine s)) = false ->
    occurs models table (onFrame image) s
      {| machine :=
           record
             (EvCall (processImage (activeModelInfo (app (machine s))) image))
             (machine s);
         tasks := tasks s ++
           [frameTask LivePreview (activeModelInfo (app (machine s))) image] |}
| oc_capture_parked (img : Image) (s : Sys) :
    isCaptured (app (machine s)) = false ->
    occurs models table (onCapture img) s
      {| machine := record (EvCall (ImageUtil_toFile img)) (machine s);
         tasks := tasks s ++ [captureTask (handleCapture models table img)] |}
| oc_return (l : Label) (s : Sys) :
    l = pressReturn \/ l = hardwareBackPress ->
    isCaptured (app (machine s)) = true ->
    occurs models table l s
      {| machine :=
           perform (setIsCaptured false)
             (perform (setCurrImage EmptyString)
                (perform (setClassesInfo []) (machine s)));
         tasks := tasks s |}
| oc_back_dialog (s : Sys) :
    isCaptured (app (machine s)) = false ->
    occurs models table hardwareBackPress s
      {| machine :=
           perform
             (Alert_alert "Hold on!" "Are you sure you want to quit?"
                quitButtons)
             (machine s);
         tasks := tasks s |}
| oc_select (mi : ModelInfo) (s : Sys) :
    isCaptured (app (machine s)) = false ->
    occurs models table (onSelectModelInfo mi) s
      {| machine := perform (setActiveModelInfo mi) (machine s);
         tasks := tasks s |}
| oc_dialog_button (n : nat) (buttons : list AlertButton) (b : AlertButton)
    (s : Sys) :
    alert (machine s) = Some buttons ->
    nth_error buttons n = Some b ->
    occurs models table (pressAlertButton n) s
      {| machine :=
           match onPress b with
           | cb_null => alertClosed (machine s)
           | cb_exitApp => perform BackHandler_exitApp (alertClosed (machine s))
           end;
         tasks := tasks s |}
| oc_file_written (n : nat) (path : string) (img : Image) (mi : ModelInfo)
    (s : Sys) :
    nth_error (tasks s) n =
      Some (captureTask (handleCapture models table img)) ->
    nth_error models 0 = Some mi ->
    occurs models table (resolveToFile n path) s
      {| machine :=
           record (call_of img mi)
             (perform (setCurrImage ("file://" ++ path)%string)
                (perform (setIsCaptured true) (machine s)));
         tasks :=
           replace_nth n
             (captureTask (awaitingModel models table img 2 1 [] mi))
             (tasks s) |}
| oc_file_written_no_model (n : nat) (path : string) (img : Image) (s : Sys) :
    nth_error (tasks s) n =
      Some (captureTask (handleCapture models table img)) ->
    nth_error models 0 = None ->
    occurs models table (resolveToFile n path) s
      {| machine :=
           perform (setCurrImage ("file://" ++ path)%string)
             (perform (setIsCaptured true) (machine s));
         tasks := remove_nth n (tasks s) |}
| oc_row_next (n : nat) (out : ExecuteOutput) (img : Image) (todo i : nat)
    (classes : list ClassInfo) (mi mi' : ModelInfo) (s : Sys) :
    nth_error (tasks s) n =
      Some (captureTask
              (awaitingModel models table img (S todo) (S i) classes mi)) ->
    i + S todo = 2 ->
    List.length classes = i ->
    Forall (is_row table) classes ->
    nth_error models (S i) = Some mi' ->
    occurs models table (resolveExecute n out) s
      {| machine := record (call_of img mi') (machine s);
         tasks :=
           replace_nth n
             (captureTask
                (awaitingModel models table img todo (S (S i))
                   (classes ++ [classRow table out]) mi'))
             (tasks s) |}
| oc_row_no_model (n : nat) (out : ExecuteOutput) (img : Image) (todo i : nat)
    (classes : list ClassInfo) (mi : ModelInfo) (s : Sys) :
    nth_error (tasks s) n =
      Some (captureTask
              (awaitingModel models table img (S todo) (S i) classes mi)) ->
    i + S todo = 2 ->
    nth_error models (S i) = None ->
    occurs models table (resolveExecute n out) s
      {| machine := machine s; tasks := remove_nth n (tasks s) |}
| oc_rows_stored (n : nat) (out : ExecuteOutput) (img : Image) (i : nat)
    (classes : list ClassInfo) (mi : ModelInfo) (s : Sys) :
    nth_error (tasks s) n =
      Some (captureTask (awaitingModel models table img 0 (S i) classes mi)) ->
    List.length classes = 2 ->
    Forall (is_row table) classes ->
    occurs models table (resolveExecute n out) s
      {| machine :=
           perform (image_release img)
             (perform (setClassesInfo (classes ++ [classRow table out]))
                (machine s));
         tasks := remove_nth n (tasks s) |}
| oc_frame_done (n : nat) (scr : ScreenState) (active : option ModelInfo)
    (image : Image) (s : Sys) :
    nth_error (tasks s) n = Some (frameTask scr active image) ->
    occurs models table (resolveProcessImage n) s
      {| machine := perform (image_release image) (machine s);
         tasks := remove_nth n (tasks s) |}
| oc_rejected (n : nat) (t : Task) (s : Sys) :
    nth_error (tasks s) n = Some t ->
    occurs models table (reject n) s
      {| machine := machine s; tasks := remove_nth n (tasks s) |}.

Definition scheduled (models : list ModelInfo) (table : list string)
    (s : Sys) : Prop :=
  Forall (scheduled_task models table) (tasks s).

(** ** Accounting for frames *)

(** Task [t] is a handler in flight for [image]. *)
Definition holds (image : Image) (t : Task) : bool :=
  match suspended t with
  | AwaitToFile img _ => Nat.eqb img image
  | AwaitExecute _ img _ => Nat.eqb img image
  | AwaitProcessImage _ img _ => Nat.eqb img image
  | _ => false
  end.

Definition in_flight (image : Image) (s : Sys) : nat :=
  List.length (filter (holds image) (tasks s)).

(** Step [l] hands [image] to a handler. *)
Definition delivers (image : Image) (l : Label) : nat :=
  match l with
  | onFrame i | onCapture i => Nat.b2n (Nat.eqb i image)
  | _ => 0
  end.

Fixpoint delivered (image : Image) (ls : list Label) : nat :=
  match ls with
  | [] => 0
  | l :: ls' => delivers image l + delivered image ls'
  end.

Definition is_reject (l : Label) : bool :=
  match l with
  | reject _ => true
  | _ => false
  end.

(** ** The dialog, and which step writes which state variable *)

(** The only alert the component ever opens. *)
Definition quit_dialog_or_none (m : Machine) : Prop :=
  alert m = None \/ alert m = Some quitButtons.


(** The result list is empty or holds three rows built by the classifier. *)
Definition none_or_three_rows (table : list string) (st : AppState) : Prop :=
  classesInfo st = [] \/
  (List.length (classesInfo st) = 3 /\ Forall (is_row table) (classesInfo st)).

(** On the result screen the image path is a [file://] URI. *)
Definition captured_has_path (st : AppState) : Prop :=
  isCaptured st = true ->
  exists path, currImage st = ("file://" ++ path)%string.

(** ** The view

    What the component returns, as the list of the elements it shows (the
    children of [ModelPreloader]); layout and colours are left out. *)

Record Resolution := { width : Z; height : Z }.

Definition targetResolution : Resolution := {| width := 480; height := 640 |}.

(** One [View] of the result text: [key], then [className: confidence%]. *)
Record ClassLine := {
  key : nat;
  lineClassName : option string;
  lineConfidence : Q
}.

Inductive Element :=
| ReturnButton
| CapturedImage (source : Resolution) (uri : string)
| ActivityIndicator
| ClassesText (lines : list ClassLine)
| SubmitButton
| CameraView (hideCaptureButton : bool) (resolution : Resolution)
| ModelSelectorView (modelInfos : list ModelInfo)
    (defaultModelInfo : option ModelInfo)
| ImageClassInfoView
| InfoIcon (url : string).

(** [classesInfo.map((c, i) => ...)], from index [i] on. *)
Fixpoint classLines (i : nat) (classes : list ClassInfo) : list ClassLine :=
  match classes with
  | [] => []
  | c :: rest =>
      {| key := i; lineClassName := className c;
         lineConfidence := confidence c |} :: classLines (S i) rest
  end.

Definition render (models : list ModelInfo) (st : AppState) : list Element :=
  if isCaptured st then
    [ReturnButton] ++
    (if String.eqb (currImage st) EmptyString then []
     else [CapturedImage targetResolution (currImage st)]) ++
    [ match js_index (classesInfo st) 0 with
      | None => ActivityIndicator
      | Some _ => ClassesText (classLines 0 (classesInfo st))
      end ] ++
    [SubmitButton]
  else
    [ CameraView false targetResolution;
      ModelSelectorView models (activeModelInfo st);
      ImageClassInfoView;
      InfoIcon "https://example.com" ].

(** ** Binary64 arithmetic

    JavaScript numbers are IEEE 754 binary64 values.  A finite one is
    modelled by its exact rational value, and an operation by the exact
    operation followed by [round64].  NaN, the infinities, overflow and the
    sign of zero are left out: they do not arise from confidences between
    0 and 1. *)

(** floor (log2 x), for 0 < x. *)
Definition ilog2 (x : Q) : Z :=
  if Qle_bool 1 x then Z.log2 (Qfloor x)
  else (- Z.log2_up (Qceiling (/ x)))%Z.

(** The nearest integer, ties to the even one. *)
Definition round_even (q : Q) : Z :=
  let f := Qfloor q in
  match (q - inject_Z f ?= 1 # 2)%Q with
  | Lt => f
  | Gt => (f + 1)%Z
  | Eq => if Z.even f then f else (f + 1)%Z
  end.

(** The exponent of the unit in the last place of [x]: 53 significant bits,
    and nothing finer than the smallest subnormal, 2 ^ -1074. *)
Definition ulp_exp (x : Q) : Z := Z.max (ilog2 (Qabs x) - 52) (-1074).

(** The binary64 value nearest to [x]. *)
Definition round64 (x : Q) : Q :=
  if Qeq_bool x 0 then 0%Q
  else (inject_Z (round_even (x / 2 ^ ulp_exp x)) * 2 ^ ulp_exp x)%Q.

(** [Math.round(confidence * 1000) / 10] as the engine evaluates it: the
    product is rounded to binary64, [Math.round] is exact on it, and the
    quotient is rounded to binary64. *)
Definition percent64 (c : Q) : Q :=
  round64 (inject_Z (Math_round (round64 (c * 1000))) / 10).

(** The exact value of one of the prover's own binary64 numbers, used to
    compare [round64] with hardware arithmetic on samples. *)
Definition value64 (f : PrimFloat.float) : Q :=
  match FloatOps.Prim2SF f with
  | SpecFloat.S754_finite s m e =>
      ((if s then -1 else 1) * inject_Z (Zpos m) * 2 ^ e)%Q
  | _ => 0%Q
  end.

(** The binary64 number [m * 2 ^ e]. *)
Definition double (m : positive) (e : Z) : PrimFloat.float :=
  FloatOps.SF2Prim (SpecFloat.S754_finite false m e).

Definition agree_mul (a b : PrimFloat.float) : bool :=
  Qeq_bool (value64 (PrimFloat.mul a b)) (round64 (value64 a * value64 b)).

Definition agree_div (a b : PrimFloat.float) : bool :=
  Qeq_bool (value64 (PrimFloat.div a b)) (round64 (value64 a / value64 b)).

(** Sample doubles: 0.0045, 0.1, 0.8734, 0.9995, 1, 1/3, a subnormal, the
    smallest subnormal, and a large one. *)
Definition sampleDoubles : list PrimFloat.float :=
  [ double 5188146770730811 (-60); double 7205759403792794 (-56);
    double 7866888128875998 (-53); double 9002695805113238 (-53);
    double 1 0; double 6004799503160661 (-54);
    double 2024 (-1074); double 1 (-1074); double 6004799503160661 100 ].

(** The double nearest to 0.0045. *)
Definition c0045 : Q := 5188146770730811 # 1152921504606846976.

(** [q] is what line 124 yields in binary64 for the confidence [c]: the
    double nearest to [k / 10] for a whole number [k] of tenths within
    [1/2 + 2^-44] of [1000 c]; it lies between 0 and 100 and within
    [1/20 + 2^-46] of the percentage [100 c]. *)
Definition binary64_percentage (c q : Q) : Prop :=
  exists k : Z,
    (0 <= k <= 1000)%Z /\
    q = round64 (inject_Z k / 10) /\
    (Qabs (inject_Z k - 1000 * c) <= (1 # 2) + 2 ^ (-44))%Q /\
    (0 <= q <= 100)%Q /\
    (Qabs (q - 100 * c) <= (1 # 20) + 2 ^ (-46))%Q.

(** The row pushed for one model's answer, the confidence in binary64. *)
Definition classRow64 (table : list string) (out : ExecuteOutput) : ClassInfo :=
  {| className := js_index table (res_maxIdx out);
     confidence := percent64 (res_confidence out);
     metrics := res_metrics out |}.

(** The loop of [classifier], building its rows with [classRow64]. *)
Fixpoint classifier_loop64 (models : list ModelInfo) (table : list string)
    (todo i : nat) (image : Image) (classes : list ClassInfo)
    : Prog (list ClassInfo) :=
  match todo with
  | O => Ret classes
  | S todo' =>
      match nth_error models i with
      | None => Throw
      | Some mi =>
          AwaitExecute (model mi) image (fun out =>
            classifier_loop64 models table todo' (S i) image
              (classes ++ [classRow64 table out]))
      end
  end.

Definition classifier64 (models : list ModelInfo) (table : list string)
    (image : Image) : Prog (list ClassInfo) :=
  classifier_loop64 models table 3 0 image [].

(** Every model answers with the double nearest to 0.0045. *)
Definition tieWorld : World :=
  {| toFile_result := fun _ => Some "/tmp/photo.png"%string;
     execute_result := fun _ _ =>
       Some {| res_maxIdx := 1; res_confidence := c0045;
               res_metrics := sampleMetrics |};
     processImage_ok := fun _ _ => true |}.

(** ** Samples for the comparison with hardware arithmetic *)

(** All counts of tenths from 1 to 1000. *)
Definition tenthCounts : list positive := map Pos.of_nat (seq 1 1000).

(** Confidences spread over (0, 1): 53-bit significands from a linear
    congruential sequence, with exponents from -53 down to -64. *)
Fixpoint spread (n : nat) (x : Z) : list PrimFloat.float :=
  match n with
  | O => []
  | S n' =>
      let x' := ((x * 6364136223846793005 + 1442695040888963407)
                 mod 9007199254740992)%Z in
      double (Z.to_pos (Z.lor x' 4503599627370496))
        (-53 - Z.of_nat (n mod 12)) :: spread n' x'
  end.

(** Line 124 on a double, by the prover's own binary64 product and
    quotient. *)
Definition percentPrim (c : PrimFloat.float) : Q :=
  let k := Math_round (value64 (PrimFloat.mul c (double 1000 0))) in
  if (k =? 0)%Z then 0%Q
  else value64 (PrimFloat.div (double (Z.to_pos k) 0) (double 10 0)).

Definition agree_percent (c : PrimFloat.float) : bool :=
  Qeq_bool (percentPrim c) (percent64 (value64 c)).

(** ** Every render

    Outside an event handler each setter makes the component render again
    (inside one, and wherever updates are batched, some of these renders
    are skipped), so the states it may render are those after each setter
    of the history, not only those in which a handler is parked. *)
Fixpoint rendered_from (st : AppState) (tr : list Event) : list AppState :=
  match tr with
  | [] => []
  | EvDo a :: tr' => update a st :: rendered_from (update a st) tr'
  | EvCall _ :: tr' => rendered_from st tr'
  end.

(** The state after the setters of a history. *)
Fixpoint settle (st : AppState) (tr : list Event) : AppState :=
  match tr with
  | [] => st
  | EvDo a :: tr' => settle (update a st) tr'
  | EvCall _ :: tr' => settle st tr'
  end.

(** Every state rendered up to [s], first render included. *)
Definition rendered (models : list ModelInfo) (s : Sys) : list AppState :=
  initialState models ::
  rendered_from (initialState models) (log (machine s)).

(** The image path is empty or a [file://] URI. *)
Definition path_empty_or_file (st : AppState) : Prop :=
  currImage st = EmptyString \/
  exists path, currImage st = ("file://" ++ path)%string.

(** What every render satisfies. *)
Definition well_rendered (table : list string) (st : AppState) : Prop :=
  path_empty_or_file st /\ none_or_three_rows table st.

(** What the handlers hand to the setters: an empty path or a [file://]
    URI, an empty list or three rows of the classifier. *)
Definition writes_well (table : list string) (a : Action) : Prop :=
  match a with
  | setCurrImage p =>
      p = EmptyString \/ exists path, p = ("file://" ++ path)%string
  | setClassesInfo classes =>
      classes = [] \/
      (List.length classes = 3 /\ Forall (is_row table) classes)
  | _ => True
  end.

(** The history accounts for the state of the machine, and every render it
    caused satisfies [well_rendered]. *)
Definition renders_well (models : list ModelInfo) (table : list string)
    (m : Machine) : Prop :=
  app m = settle (initialState models) (log m) /\
  Forall (well_rendered table)
    (rendered_from (initialState models) (log m)) /\
  well_rendered table (app m).

(** The sample capture up to the written file, and the render between the
    two setters that follow it. *)
Definition fileWritten : list Label :=
  [onCapture 7; resolveToFile 0 "/tmp/photo.png"%string].

Definition betweenSetters : AppState :=
  update (setIsCaptured true) (initialState sampleModels).

(** The sample capture up to its last answer. *)
Definition rowsStored : list Label :=
  [ onCapture 7; resolveToFile 0 "/tmp/photo.png"%string;
    resolveExecute 0 sampleOutput; resolveExecute 0 sampleOutput;
    resolveExecute 0 sampleOutput ].


(** ** General facts about the two semantics *)

Lemma run_bind (A B : Type) (w : World) (p : Prog A) (f : A -> Prog B) :
  forall m,
    run w (bind p f) m =
    match run w p m with
    | (Some a, m') => run w (f a) m'
    | (None, m') => (None, m')
    end.
Proof.
  induction p as [a | | a k IH | img k IH | mp image k IH | mi image k IH];
    intro m; simpl; try reflexivity.
  - apply IH.
  - destruct (toFile_result w img); [apply IH | reflexivity].
  - destruct (execute_result w mp image); [apply IH | reflexivity].
  - destruct (processImage_ok w mi image); [apply IH | reflexivity].
Qed.

Lemma log_perform (a : Action) (m : Machine) :
  log (perform a m) = log m ++ [EvDo a].
Proof. destruct a; reflexivity. Qed.

Lemma app_perform (a : Action) (m : Machine) :
  app (perform a m) = update a (app m).
Proof. destruct a; reflexivity. Qed.

Lemma alert_perform (a : Action) (m : Machine) :
  alert (perform a m) =
  match a with
  | Alert_alert _ _ buttons => Some buttons
  | _ => alert m
  end.
Proof. destruct a; reflexivity. Qed.

Lemma exited_perform (a : Action) (m : Machine) :
  exited (perform a m) =
  match a with
  | BackHandler_exitApp => true
  | _ => exited m
  end.
Proof. destruct a; reflexivity. Qed.

Lemma exited_record (e : Event) (m : Machine) :
  exited (record e m) = exited m.
Proof. reflexivity. Qed.

(** Two machines with the same four components are the same machine. *)
Lemma machine_eq (m1 m2 : Machine) :
  app m1 = app m2 -> alert m1 = alert m2 -> exited m1 = exited m2 ->
  log m1 = log m2 -> m1 = m2.
Proof.
  destruct m1, m2. simpl. intros -> -> -> ->. reflexivity.
Qed.

(** A handler only ever adds to the history. *)
Lemma run_log_extends (A : Type) (w : World) (p : Prog A) :
  forall m, exists tr, log (snd (run w p m)) = log m ++ tr.
Proof.
  induction p as [a | | a k IH | img k IH | mp image k IH | mi image k IH];
    intro m; simpl.
  - exists []. now rewrite app_nil_r.
  - exists []. now rewrite app_nil_r.
  - destruct (IH (perform a m)) as [tr Htr].
    exists (EvDo a :: tr). rewrite Htr, log_perform, <- app_assoc. reflexivity.
  - destruct (toFile_result w img) as [path|].
    + destruct (IH path (record (EvCall (ImageUtil_toFile img)) m)) as [tr Htr].
      eexists. rewrite Htr. simpl. rewrite <- app_assoc. reflexivity.
    + eexists. reflexivity.
  - destruct (execute_result w mp image) as [out|].
    + destruct (IH out (record (EvCall (MobileModel_execute mp image)) m))
        as [tr Htr].
      eexists. rewrite Htr. simpl. rewrite <- app_assoc. reflexivity.
    + eexists. reflexivity.
  - destruct (processImage_ok w mi image).
    + destruct (IH (record (EvCall (processImage mi image)) m)) as [tr Htr].
      eexists. rewrite Htr. simpl. rewrite <- app_assoc. reflexivity.
    + eexists. reflexivity.
Qed.

(** The classifier against three models that all answer. *)
Lemma run_classifier (models : list ModelInfo) (table : list string)
    (w : World) (image : Image) (m : Machine)
    (mi0 mi1 mi2 : ModelInfo) (o0 o1 o2 : ExecuteOutput) :
  nth_error models 0 = Some mi0 ->
  nth_error models 1 = Some mi1 ->
  nth_error models 2 = Some mi2 ->
  execute_result w (model mi0) image = Some o0 ->
  execute_result w (model mi1) image = Some o1 ->
  execute_result w (model mi2) image = Some o2 ->
  run w (classifier models table image) m =
  (Some [classRow table o0; classRow table o1; classRow table o2],
   record (EvCall (MobileModel_execute (model mi2) image))
     (record (EvCall (MobileModel_execute (model mi1) image))
        (record (EvCall (MobileModel_execute (model mi0) image)) m))).
Proof.
  intros H0 H1 H2 E0 E1 E2.
  unfold classifier. cbn [classifier_loop].
  rewrite H0. cbn [run]. rewrite E0. cbn [classifier_loop].
  rewrite H1. cbn [run]. rewrite E1. cbn [classifier_loop].
  rewrite H2. cbn [run]. rewrite E2. reflexivity.
Qed.

(** ** The frame handler *)

(** C3: a frame that arrives while the screen is Captured is released at
    once: the handler finishes without awaiting anything, its whole effect
    is the one [image.release()], [processImage] is not called, and in the
    running app the frame leaves no task behind. *)
Theorem handleFrame_while_captured (models : list ModelInfo)
    (table : list string) (w : World) (s : Sys) (image : Image) :
  isCaptured (app (machine s)) = true ->
  let m := machine s in
  let m' := record (EvDo (image_release image)) m in
  run w (handleFrame (app m) image) m = (Some tt, m') /\
  advance (handleFrame (app m) image) m = (m', None) /\
  app m' = app m /\
  (exists tr,
     log m' = log m ++ tr /\
     tr = [EvDo (image_release image)] /\
     releases image tr = 1 /\
     filter is_processImage tr = []) /\
  (exited m = false ->
   step models table (onFrame image) s =
     Some {| machine := m'; tasks := tasks s |}).
Proof.
  intros Hc m m'. unfold handleFrame. subst m. rewrite Hc.
  split; [reflexivity |]. split; [reflexivity |]. split; [reflexivity |].
  split.
  - exists [EvDo (image_release image)].
    repeat split. unfold releases. simpl. now rewrite Nat.eqb_refl.
  - intro He. unfold step, spawn, handleFrame. rewrite He, Hc. reflexivity.
Qed.

Lemma handleFrame_while_captured_witness :
  isCaptured (app (machine capturedSys)) = true /\
  run sampleWorld (handleFrame (app (machine capturedSys)) 8)
    (machine capturedSys) =
    (Some tt, record (EvDo (image_release 8)) (machine capturedSys)).
Proof.
  split; [reflexivity |].
  apply (@handleFrame_while_captured sampleModels sampleClasses sampleWorld
           capturedSys 8 eq_refl).
Defined.

(** ** Return and the hardware back button *)

Lemma run_handlePressReturn (w : World) (m : Machine) :
  fst (run w handlePressReturn m) = Some tt /\
  app (snd (run w handlePressReturn m)) = cleared (app m).
Proof. split; reflexivity. Qed.

(** C6: from Captured, the Return button and the hardware back button both
    empty the result list, set the image path to the empty string and bring
    the screen back to LivePreview; this holds for the handlers run on their
    own and for the corresponding steps of the running app. *)
Theorem return_clears_capture (models : list ModelInfo) (table : list string)
    (w : World) (s : Sys) :
  isCaptured (app (machine s)) = true ->
  exited (machine s) = false ->
  let m := machine s in
  (fst (run w handlePressReturn m) = Some tt /\
   app (snd (run w handlePressReturn m)) = cleared (app m)) /\
  (fst (run w (backAction (app m)) m) = Some true /\
   app (snd (run w (backAction (app m)) m)) = cleared (app m)) /\
  (forall l, l = pressReturn \/ l = hardwareBackPress ->
     exists s', step models table l s = Some s' /\
       classesInfo (app (machine s')) = [] /\
       currImage (app (machine s')) = EmptyString /\
       isCaptured (app (machine s')) = false /\
       screen (app (machine s')) = LivePreview /\
       activeModelInfo (app (machine s')) = activeModelInfo (app m) /\
       tasks s' = tasks s).
Proof.
  intros Hc He m. subst m.
  split; [apply run_handlePressReturn |].
  split.
  - unfold backAction. rewrite Hc. split; reflexivity.
  - intros l [-> | ->]; unfold step, backAction; rewrite He, Hc;
      (eexists; split; [reflexivity |]); repeat split.
Qed.

Lemma return_clears_capture_witness :
  isCaptured (app (machine capturedSys)) = true /\
  exited (machine capturedSys) = false /\
  app (snd (run sampleWorld handlePressReturn (machine capturedSys))) =
    cleared (app (machine capturedSys)) /\
  app (snd (run sampleWorld (backAction (app (machine capturedSys)))
              (machine capturedSys))) =
    cleared (app (machine capturedSys)).
Proof.
  split; [reflexivity |]. split; [reflexivity |].
  pose proof (return_clears_capture sampleModels sampleClasses sampleWorld
                capturedSys eq_refl eq_refl) as [[_ H1] [[_ H2] _]].
  split; [exact H1 | exact H2].
Defined.

(** C8: a hardware back press in LivePreview changes no state variable and
    opens the quit dialog with the two buttons Cancel and YES.  Pressing
    Cancel closes the dialog and leaves the screen in LivePreview with the
    result list, the image path and the selected model as they were;
    pressing YES exits the app, after which nothing can happen any more. *)
Theorem back_in_live_preview (models : list ModelInfo) (table : list string)
    (s : Sys) :
  isCaptured (app (machine s)) = false ->
  exited (machine s) = false ->
  exists s1,
    step models table hardwareBackPress s = Some s1 /\
    app (machine s1) = app (machine s) /\
    exited (machine s1) = false /\
    tasks s1 = tasks s /\
    alert (machine s1) = Some quitButtons /\
    map text quitButtons = [ "Cancel"; "YES" ]%string /\
    (exists s2,
       step models table (pressAlertButton 0) s1 = Some s2 /\
       app (machine s2) = app (machine s) /\
       screen (app (machine s2)) = LivePreview /\
       exited (machine s2) = false /\
       alert (machine s2) = None /\
       tasks s2 = tasks s) /\
    (exists s3,
       step models table (pressAlertButton 1) s1 = Some s3 /\
       exited (machine s3) = true /\
       forall l, step models table l s3 = None).
Proof.
  intros Hc He.
  unfold step at 1. rewrite He. unfold backAction. rewrite Hc.
  eexists. split; [reflexivity |]. simpl.
  repeat split; try assumption.
  - unfold step; simpl; rewrite He.
    eexists. split; [reflexivity |]. simpl.
    unfold screen. rewrite Hc. repeat split.
  - unfold step; simpl; rewrite He.
    eexists. split; [reflexivity |]. simpl.
    split; [reflexivity |]. intro l. reflexivity.
Qed.

Lemma back_in_live_preview_witness :
  isCaptured (app (machine (initialSys sampleModels))) = false /\
  exited (machine (initialSys sampleModels)) = false /\
  exists s1,
    step sampleModels sampleClasses hardwareBackPress
      (initialSys sampleModels) = Some s1 /\
    app (machine s1) = app (machine (initialSys sampleModels)).
Proof.
  split; [reflexivity |]. split; [reflexivity |].
  destruct (back_in_live_preview sampleModels sampleClasses
              (initialSys sampleModels) eq_refl eq_refl) as [s1 [H1 [H2 _]]].
  exists s1. split; [exact H1 | exact H2].
Defined.

(** ** The capture handler *)

Lemma releases_app (image : Image) (l1 l2 : list Event) :
  releases image (l1 ++ l2) = releases image l1 + releases image l2.
Proof. unfold releases. now rewrite filter_app, length_app. Qed.

(** The classifier releases nothing and sets no state. *)
Lemma classifier_loop_quiet (models : list ModelInfo) (table : list string)
    (w : World) (image img : Image) :
  forall todo i classes m,
  exists tr,
    log (snd (run w (classifier_loop models table todo i image classes) m)) =
      log m ++ tr /\
    releases img tr = 0 /\
    app (snd (run w (classifier_loop models table todo i image classes) m)) =
      app m.
Proof.
  induction todo as [| todo IH]; intros i classes m; simpl.
  - exists []. rewrite app_nil_r. repeat split.
  - destruct (nth_error models i) as [mi |]; simpl.
    + destruct (execute_result w (model mi) image) as [out |].
      * destruct (IH (S i) (classes ++ [classRow table out])
                    (record (EvCall (MobileModel_execute (model mi) image)) m))
          as [tr [Hlog [Hrel Happ]]].
        exists (EvCall (MobileModel_execute (model mi) image) :: tr).
        rewrite Hlog, Happ. simpl. rewrite <- app_assoc.
        repeat split. exact Hrel.
      * exists [EvCall (MobileModel_execute (model mi) image)].
        repeat split.
    + exists []. rewrite app_nil_r. repeat split.
Qed.

(** What a capture does when the file write and the three models succeed. *)
Lemma run_handleCapture (models : list ModelInfo) (table : list string)
    (w : World) (img : Image) (m : Machine) (path : string)
    (mi0 mi1 mi2 : ModelInfo) (o0 o1 o2 : ExecuteOutput) :
  toFile_result w img = Some path ->
  nth_error models 0 = Some mi0 ->
  nth_error models 1 = Some mi1 ->
  nth_error models 2 = Some mi2 ->
  execute_result w (model mi0) img = Some o0 ->
  execute_result w (model mi1) img = Some o1 ->
  execute_result w (model mi2) img = Some o2 ->
  let classes := [classRow table o0; classRow table o1; classRow table o2] in
  run w (handleCapture models table img) m =
  (Some tt,
   {| app := {| activeModelInfo := activeModelInfo (app m);
                isCaptured := true;
                currImage := ("file://" ++ path)%string;
                classesInfo := classes |};
      alert := alert m;
      exited := exited m;
      log := log m ++
        [ EvCall (ImageUtil_toFile img);
          EvDo (setIsCaptured true);
          EvDo (setCurrImage ("file://" ++ path)%string);
          EvCall (MobileModel_execute (model mi0) img);
          EvCall (MobileModel_execute (model mi1) img);
          EvCall (MobileModel_execute (model mi2) img);
          EvDo (setClassesInfo classes);
          EvDo (image_release img) ] |}).
Proof.
  intros Hf H0 H1 H2 E0 E1 E2 classes.
  unfold handleCapture. cbn [run]. rewrite Hf. cbn [run].
  rewrite run_bind.
  rewrite (@run_classifier models table w img _ mi0 mi1 mi2 o0 o1 o2
             H0 H1 H2 E0 E1 E2).
  cbn [run]. f_equal.
  apply machine_eq; cbn [app alert exited log];
    repeat rewrite ?app_perform, ?alert_perform, ?exited_perform,
                   ?log_perform;
    cbn [record app alert exited log update activeModelInfo isCaptured
         currImage classesInfo];
    repeat rewrite ?app_perform, ?alert_perform, ?exited_perform,
                   ?log_perform;
    cbn [record app alert exited log update activeModelInfo isCaptured
         currImage classesInfo];
    try reflexivity.
  repeat rewrite <- app_assoc. reflexivity.
Qed.





(** ** Releasing frames *)

Lemma handleFrame_resolves (w : World) (m : Machine) (image : Image) :
  fst (run w (handleFrame (app m) image) m) = Some tt ->
  released_once w (handleFrame (app m) image) m image.
Proof.
  unfold released_once, handleFrame.
  destruct (isCaptured (app m)); simpl.
  - intros _. exists [EvDo (image_release image)].
    split; [reflexivity |]. unfold releases. simpl.
    now rewrite Nat.eqb_refl.
  - destruct (processImage_ok w (activeModelInfo (app m)) image); simpl.
    + intros _.
      exists [EvCall (processImage (activeModelInfo (app m)) image);
              EvDo (image_release image)].
      split; [now rewrite <- app_assoc |]. unfold releases. simpl.
      now rewrite Nat.eqb_refl.
    + discriminate.
Qed.

Lemma handleCapture_resolves (models : list ModelInfo) (table : list string)
    (w : World) (m : Machine) (img : Image) :
  fst (run w (handleCapture models table img) m) = Some tt ->
  released_once w (handleCapture models table img) m img.
Proof.
  unfold released_once, handleCapture. cbn [run].
  destruct (toFile_result w img) as [path |]; [| discriminate].
  cbn [run]. rewrite run_bind.
  set (m2 := perform _ (perform _ _)).
  destruct (@classifier_loop_quiet models table w img img 3 0 [] m2)
    as [tr [Hlog [Hrel _]]].
  fold (classifier models table img) in Hlog.
  destruct (run w (classifier models table img) m2) as [[classes |] m3];
    [| discriminate].
  intros _. simpl in Hlog. simpl.
  exists ([EvCall (ImageUtil_toFile img); EvDo (setIsCaptured true);
           EvDo (setCurrImage ("file://" ++ path)%string)] ++ tr ++
          [EvDo (setClassesInfo classes); EvDo (image_release img)]).
  split.
  - rewrite Hlog. subst m2. simpl. repeat rewrite <- app_assoc. reflexivity.
  - repeat rewrite releases_app. rewrite Hrel. unfold releases. simpl.
    now rewrite Nat.eqb_refl.
Qed.

(** C2 (as the code has it): a frame given to [handleFrame] or
    [handleCapture] is released exactly once on every path on which the
    handler's awaited calls resolve: skipped while Captured, processed in
    LivePreview, or captured.  (There is no [try]/[finally]: a handler
    whose awaited call rejects stops at that call.) *)
Theorem frame_released_once_when_calls_resolve
    (models : list ModelInfo) (table : list string)
    (w : World) (m : Machine) (image : Image) :
  (isCaptured (app m) = true ->
     fst (run w (handleFrame (app m) image) m) = Some tt /\
     released_once w (handleFrame (app m) image) m image) /\
  (isCaptured (app m) = false ->
   processImage_ok w (activeModelInfo (app m)) image = true ->
     fst (run w (handleFrame (app m) image) m) = Some tt /\
     released_once w (handleFrame (app m) image) m image) /\
  (forall path mi0 mi1 mi2 o0 o1 o2,
     toFile_result w image = Some path ->
     nth_error models 0 = Some mi0 ->
     nth_error models 1 = Some mi1 ->
     nth_error models 2 = Some mi2 ->
     execute_result w (model mi0) image = Some o0 ->
     execute_result w (model mi1) image = Some o1 ->
     execute_result w (model mi2) image = Some o2 ->
     fst (run w (handleCapture models table image) m) = Some tt /\
     released_once w (handleCapture models table image) m image) /\
  (fst (run w (handleFrame (app m) image) m) = Some tt ->
     released_once w (handleFrame (app m) image) m image) /\
  (fst (run w (handleCapture models table image) m) = Some tt ->
     released_once w (handleCapture models table image) m image).
Proof.
  assert (Hskip : isCaptured (app m) = true ->
                  fst (run w (handleFrame (app m) image) m) = Some tt).
  { intro Hc. unfold handleFrame. now rewrite Hc. }
  assert (Hlive : isCaptured (app m) = false ->
                  processImage_ok w (activeModelInfo (app m)) image = true ->
                  fst (run w (handleFrame (app m) image) m) = Some tt).
  { intros Hc Hok. unfold handleFrame. rewrite Hc. simpl. now rewrite Hok. }
  split; [| split; [| split; [| split]]].
  - intro Hc. split; [| apply handleFrame_resolves]; auto.
  - intros Hc Hok. split; [| apply handleFrame_resolves]; auto.
  - intros path mi0 mi1 mi2 o0 o1 o2 Hf H0 H1 H2 E0 E1 E2.
    assert (Hres : fst (run w (handleCapture models table image) m) = Some tt).
    { rewrite (@run_handleCapture models table w image m path
                 mi0 mi1 mi2 o0 o1 o2); auto. }
    split; [exact Hres | apply handleCapture_resolves; exact Hres].
  - apply handleFrame_resolves.
  - apply handleCapture_resolves.
Qed.

Lemma frame_released_once_when_calls_resolve_witness :
  isCaptured (app sampleMachine) = false /\
  processImage_ok sampleWorld (activeModelInfo (app sampleMachine)) 7 = true /\
  released_once sampleWorld (handleFrame (app sampleMachine) 7)
    sampleMachine 7 /\
  released_once sampleWorld (handleCapture sampleModels sampleClasses 7)
    sampleMachine 7.
Proof.
  split; [reflexivity |]. split; [reflexivity |].
  pose proof (frame_released_once_when_calls_resolve sampleModels
                sampleClasses sampleWorld sampleMachine 7)
    as [_ [Hlive [_ [_ Hcap]]]].
  split.
  - apply (Hlive eq_refl eq_refl).
  - apply Hcap. reflexivity.
Defined.

(** C2 as stated fails: when the first model rejects, [handleCapture]
    stops inside the classifier and never reaches its [img.release()]; when
    the live-preview inference rejects, [handleFrame] stops before its
    [image.release()].  Neither history contains a release. *)
Lemma rejected_frame_not_released :
  ~ released_once failingWorld (handleCapture sampleModels sampleClasses 7)
      sampleMachine 7 /\
  log (snd (run failingWorld (handleCapture sampleModels sampleClasses 7)
              sampleMachine)) =
    [ EvCall (ImageUtil_toFile 7);
      EvDo (setIsCaptured true);
      EvDo (setCurrImage "file:///tmp/photo.png");
      EvCall (MobileModel_execute "mobilenet_v3_small.ptl"%string 7) ] /\
  ~ released_once failingWorld (handleFrame (app sampleMachine) 7)
      sampleMachine 7 /\
  log (snd (run failingWorld (handleFrame (app sampleMachine) 7)
              sampleMachine)) =
    [EvCall (processImage (activeModelInfo (app sampleMachine)) 7)].
Proof.
  split; [| split; [reflexivity | split; [| reflexivity]]].
  - intros [tr [Hlog Hrel]].
    simpl in Hlog. subst tr. discriminate Hrel.
  - intros [tr [Hlog Hrel]].
    simpl in Hlog. subst tr. discriminate Hrel.
Qed.

(** ** The classifier *)

Lemma Math_round_close (x : Q) :
  (Qabs (inject_Z (Math_round x) - x) <= 1 # 2)%Q.
Proof.
  unfold Math_round.
  pose proof (Qfloor_le (x + (1 # 2))) as Hle.
  pose proof (Qlt_floor (x + (1 # 2))) as Hlt.
  rewrite inject_Z_plus in Hlt.
  change (inject_Z 1) with 1%Q in Hlt.
  apply Qabs_case; intros _; lra.
Qed.

Lemma js_index_in_range (A : Type) (arr : list A) (i : Z) :
  (0 <= i < Z.of_nat (List.length arr))%Z ->
  exists x, nth_error arr (Z.to_nat i) = Some x /\ js_index arr i = Some x.
Proof.
  intros [Hlo Hhi]. unfold js_index.
  destruct (Z.ltb_spec i 0) as [Hneg | _]; [lia |].
  destruct (nth_error arr (Z.to_nat i)) as [x |] eqn:Hnth.
  - exists x. split; reflexivity.
  - apply nth_error_None in Hnth. lia.
Qed.

Lemma js_index_out_of_range (A : Type) (arr : list A) (i : Z) :
  (i < 0 \/ Z.of_nat (List.length arr) <= i)%Z ->
  js_index arr i = None.
Proof.
  intros H. unfold js_index.
  destruct (Z.ltb_spec i 0) as [Hneg | Hpos]; [reflexivity |].
  apply nth_error_None. lia.
Qed.

Lemma sample_models_answer :
  forall i, i < 3 ->
    exists mi out,
      nth_error sampleModels i = Some mi /\
      execute_result sampleWorld (model mi) 7 = Some out /\
      (0 <= res_confidence out <= 1)%Q.
Proof.
  intros i Hi.
  destruct i as [| [| [| i]]]; [| | | lia];
    (eexists; exists sampleOutput;
     split; [reflexivity |]; split; [reflexivity |];
     split; unfold Qle; simpl; lia).
Defined.

(** C10: the label of a row is the table entry at the index the model
    returned, whenever that index lies inside the table; there is no bounds
    check, so an index outside the table makes the classifier resolve all
    the same, with an undefined label in that row.  Such answers exist for
    every table: the table's length is an index past its end. *)
Theorem label_lookup_unguarded (models : list ModelInfo) (table : list string)
    (w : World) (image : Image) (m : Machine)
    (mi0 mi1 mi2 : ModelInfo) (o0 o1 o2 : ExecuteOutput) :
  nth_error models 0 = Some mi0 ->
  nth_error models 1 = Some mi1 ->
  nth_error models 2 = Some mi2 ->
  execute_result w (model mi0) image = Some o0 ->
  execute_result w (model mi1) image = Some o1 ->
  execute_result w (model mi2) image = Some o2 ->
  (exists classes m',
     run w (classifier models table image) m = (Some classes, m') /\
     Forall2
       (fun o c =>
          ((0 <= res_maxIdx o < Z.of_nat (List.length table))%Z ->
             exists label,
               nth_error table (Z.to_nat (res_maxIdx o)) = Some label /\
               className c = Some label) /\
          ((res_maxIdx o < 0 \/
            Z.of_nat (List.length table) <= res_maxIdx o)%Z ->
             className c = None))
       [o0; o1; o2] classes) /\
  (exists w' classes m',
     run w' (classifier models table image) m = (Some classes, m') /\
     List.length classes = 3 /\
     Forall (fun c => className c = None) classes).
Proof.
  intros H0 H1 H2 E0 E1 E2.
  assert (Hrow : forall o,
    ((0 <= res_maxIdx o < Z.of_nat (List.length table))%Z ->
       exists label,
         nth_error table (Z.to_nat (res_maxIdx o)) = Some label /\
         className (classRow table o) = Some label) /\
    ((res_maxIdx o < 0 \/ Z.of_nat (List.length table) <= res_maxIdx o)%Z ->
       className (classRow table o) = None)).
  { intro o. split.
    - intro Hin. apply js_index_in_range. exact Hin.
    - intro Hout. apply js_index_out_of_range. exact Hout. }
  split.
  - do 2 eexists.
    split; [apply (@run_classifier models table w image m
                     mi0 mi1 mi2 o0 o1 o2); assumption |].
    repeat constructor; apply Hrow.
  - set (stray := {| res_maxIdx := Z.of_nat (List.length table);
                     res_confidence := 1 # 2;
                     res_metrics := res_metrics o0 |}).
    exists {| toFile_result := toFile_result w;
              execute_result := fun _ _ => Some stray;
              processImage_ok := processImage_ok w |}.
    do 2 eexists.
    split; [apply (@run_classifier models table _ image m
                     mi0 mi1 mi2 stray stray stray);
            first [assumption | reflexivity] |].
    split; [reflexivity |].
    repeat constructor; apply js_index_out_of_range; simpl; lia.
Qed.

Lemma label_lookup_unguarded_witness :
  nth_error sampleModels 2 <> None /\
  exists classes m',
    run strayWorld (classifier sampleModels sampleClasses 7) sampleMachine =
      (Some classes, m') /\
    Forall2
      (fun o c =>
         ((0 <= res_maxIdx o < Z.of_nat (List.length sampleClasses))%Z ->
            exists label,
              nth_error sampleClasses (Z.to_nat (res_maxIdx o)) = Some label /\
              className c = Some label) /\
         ((res_maxIdx o < 0 \/
           Z.of_nat (List.length sampleClasses) <= res_maxIdx o)%Z ->
            className c = None))
      [strayOutput; strayOutput; strayOutput] classes.
Proof.
  split; [discriminate |].
  apply (@label_lookup_unguarded sampleModels sampleClasses strayWorld 7
           sampleMachine _ _ _ strayOutput strayOutput strayOutput
           eq_refl eq_refl eq_refl eq_refl eq_refl eq_refl).
Defined.

(** ** Model selection *)

Lemma same_but_selection_perform (a : Action) (m1 m2 : Machine) :
  same_but_selection m1 m2 ->
  same_but_selection (perform a m1) (perform a m2).
Proof.
  unfold same_but_selection.
  intros (Hc & Hi & Hl & Ha & He).
  destruct a; simpl; repeat split; assumption.
Qed.

Lemma same_but_selection_record (e : Event) (m1 m2 : Machine) :
  same_but_selection m1 m2 ->
  same_but_selection (record e m1) (record e m2).
Proof. unfold same_but_selection. simpl. tauto. Qed.

(** A handler that was built without looking at the selected model does the
    same from two machines that differ only in the selection. *)
Lemma run_ignores_selection (A : Type) (w : World) (p : Prog A) :
  forall m1 m2,
    same_but_selection m1 m2 ->
    fst (run w p m1) = fst (run w p m2) /\
    same_but_selection (snd (run w p m1)) (snd (run w p m2)) /\
    exists tr,
      log (snd (run w p m1)) = log m1 ++ tr /\
      log (snd (run w p m2)) = log m2 ++ tr.
Proof.
  induction p as [a | | a k IH | img k IH | mp image k IH | mi image k IH];
    intros m1 m2 Hsame; simpl.
  - repeat split; try apply Hsame. exists []. now rewrite !app_nil_r.
  - repeat split; try apply Hsame. exists []. now rewrite !app_nil_r.
  - destruct (IH _ _ (same_but_selection_perform a Hsame))
      as (Hr & Hs & tr & H1 & H2).
    repeat split; try assumption; try apply Hs.
    exists (EvDo a :: tr).
    rewrite H1, H2, !log_perform, <- !app_assoc. split; reflexivity.
  - destruct (toFile_result w img) as [path |].
    + destruct (IH path _ _
                  (same_but_selection_record (EvCall (ImageUtil_toFile img))
                     Hsame))
        as (Hr & Hs & tr & H1 & H2).
      repeat split; try assumption; try apply Hs.
      exists (EvCall (ImageUtil_toFile img) :: tr).
      rewrite H1, H2. simpl. rewrite <- !app_assoc. split; reflexivity.
    + simpl. repeat split; try apply Hsame. eexists. split; reflexivity.
  - destruct (execute_result w mp image) as [out |].
    + destruct (IH out _ _
                  (same_but_selection_record
                     (EvCall (MobileModel_execute mp image)) Hsame))
        as (Hr & Hs & tr & H1 & H2).
      repeat split; try assumption; try apply Hs.
      exists (EvCall (MobileModel_execute mp image) :: tr).
      rewrite H1, H2. simpl. rewrite <- !app_assoc. split; reflexivity.
    + simpl. repeat split; try apply Hsame. eexists. split; reflexivity.
  - destruct (processImage_ok w mi image).
    + destruct (IH _ _
                  (same_but_selection_record
                     (EvCall (processImage mi image)) Hsame))
        as (Hr & Hs & tr & H1 & H2).
      repeat split; try assumption; try apply Hs.
      exists (EvCall (processImage mi image) :: tr).
      rewrite H1, H2. simpl. rewrite <- !app_assoc. split; reflexivity.
    + simpl. repeat split; try apply Hsame. eexists. split; reflexivity.
Qed.

(** C5: selecting a model changes neither the screen state nor the image
    path nor the result list.  The classifier and the capture handler do
    the same whichever model is selected: same rows, same calls in the same
    order, same resulting screen state, image path and result list.  The
    selection does reach the live-preview hook: the frame handler calls
    [processImage] bound to the selected model. *)
Theorem selection_only_reaches_live_preview
    (models : list ModelInfo) (table : list string)
    (w : World) (img : Image) (m : Machine) (mi1 mi2 : ModelInfo) :
  let m1 := perform (setActiveModelInfo mi1) m in
  let m2 := perform (setActiveModelInfo mi2) m in
  (isCaptured (app m1) = isCaptured (app m) /\
   currImage (app m1) = currImage (app m) /\
   classesInfo (app m1) = classesInfo (app m) /\
   activeModelInfo (app m1) = Some mi1) /\
  (fst (run w (classifier models table img) m1) =
   fst (run w (classifier models table img) m2)) /\
  (exists tr,
     log (snd (run w (handleCapture models table img) m1)) = log m1 ++ tr /\
     log (snd (run w (handleCapture models table img) m2)) = log m2 ++ tr) /\
  same_but_selection
    (snd (run w (handleCapture models table img) m1))
    (snd (run w (handleCapture models table img) m2)) /\
  (isCaptured (app m) = false ->
   exists rest,
     log (snd (run w (handleFrame (app m1) img) m1)) =
       log m1 ++ EvCall (processImage (Some mi1) img) :: rest) /\
  (forall s,
     machine s = m -> exited m = false -> isCaptured (app m) = false ->
     exists s',
       step models table (onSelectModelInfo mi1) s = Some s' /\
       machine s' = m1 /\
       screen (app (machine s')) = screen (app m) /\
       tasks s' = tasks s).
Proof.
  intros m1 m2.
  assert (Hsame : same_but_selection m1 m2).
  { unfold same_but_selection, m1, m2. simpl. repeat split. }
  split; [repeat split |].
  split; [apply (run_ignores_selection w (classifier models table img) Hsame) |].
  destruct (run_ignores_selection w (handleCapture models table img) Hsame)
    as (_ & Hs & Htr).
  split; [exact Htr |]. split; [exact Hs |].
  split.
  - intro Hc. unfold handleFrame.
    replace (isCaptured (app m1)) with false by (symmetry; exact Hc).
    simpl.
    destruct (processImage_ok w (Some mi1) img); simpl; eexists;
      rewrite <- ?app_assoc; reflexivity.
  - intros s Hm He Hc. subst m. unfold step. rewrite He, Hc.
    eexists. split; [reflexivity |]. repeat split.
Qed.

Lemma selection_only_reaches_live_preview_witness :
  isCaptured (app sampleMachine) = false /\
  exists rest,
    log (snd (run sampleWorld
                (handleFrame
                   (app (perform (setActiveModelInfo resnet) sampleMachine)) 7)
                (perform (setActiveModelInfo resnet) sampleMachine))) =
      log (perform (setActiveModelInfo resnet) sampleMachine) ++
      EvCall (processImage (Some resnet) 7) :: rest.
Proof.
  split; [reflexivity |].
  pose proof (@selection_only_reaches_live_preview sampleModels sampleClasses
                sampleWorld 7 sampleMachine resnet resnet) as H.
  cbv zeta in H. destruct H as (_ & _ & _ & _ & H & _).
  apply H. reflexivity.
Defined.

(** ** Invariants of the running app *)

Lemma Forall_remove_nth (P : Task -> Prop) (n : nat) :
  forall l, Forall P l -> Forall P (remove_nth n l).
Proof.
  induction n as [| n IH]; intros l Hl; destruct Hl as [| t l Ht Hl];
    simpl; auto.
Qed.

Lemma Forall_replace_nth (P : Task -> Prop) (t : Task) (n : nat) :
  P t -> forall l, Forall P l -> Forall P (replace_nth n t l).
Proof.
  intro Ht. induction n as [| n IH]; intros l Hl;
    destruct Hl as [| t' l Ht' Hl]; simpl; auto.
Qed.

Lemma Forall_nth_error (P : Task -> Prop) (l : list Task) (n : nat) (t : Task) :
  Forall P l -> nth_error l n = Some t -> P t.
Proof.
  intros Hl Hn. rewrite Forall_forall in Hl.
  apply Hl. eapply nth_error_In. exact Hn.
Qed.

Lemma existsb_false_Forall (f : Task -> bool) (l : list Task) :
  existsb f l = false <-> Forall (fun t => f t = false) l.
Proof.
  induction l as [| t l IH]; simpl.
  - split; auto.
  - rewrite orb_false_iff, IH. split.
    + intros [H1 H2]. constructor; assumption.
    + intro H. inversion H; subst. split; assumption.
Qed.

(** The capture handler from the classifier on: it either finishes, leaving
    the screen state and the image path alone, or parks at the next model
    call without touching the state. *)
Lemma advance_classifier (models : list ModelInfo) (table : list string)
    (img : Image) (todo i : nat) (classes : list ClassInfo) (m : Machine) :
  let p := classes' <- classifier_loop models table todo i img classes ;;
           Do (setClassesInfo classes') (Do (image_release img) (Ret tt)) in
  (exists m',
     advance p m = (m', None) /\
     isCaptured (app m') = isCaptured (app m) /\
     currImage (app m') = currImage (app m)) \/
  (exists m' p',
     advance p m = (m', Some p') /\
     app m' = app m /\
     known_task models table
       {| origin := FromCapture; started_in := LivePreview;
          suspended := p' |} /\
     classifying
       {| origin := FromCapture; started_in := LivePreview;
          suspended := p' |} = true).
Proof.
  destruct todo as [| todo]; simpl.
  - left. eexists. repeat split.
  - destruct (nth_error models i) as [mi |]; simpl.
    + right. do 2 eexists. split; [reflexivity |].
      split; [reflexivity |]. split; [| reflexivity].
      apply (kt_execute models table img todo (S i) classes mi).
    + left. eexists. repeat split.
Qed.

Lemma quiet_same (s s' : Sys) : tasks s' = tasks s -> quiet s s'.
Proof. unfold quiet. intros ->. auto. Qed.

Lemma quiet_remove (s : Sys) (m : Machine) (n : nat) :
  quiet s {| machine := m; tasks := remove_nth n (tasks s) |}.
Proof. unfold quiet. simpl. apply Forall_remove_nth. Qed.

(** Resuming a capture at the classifier keeps the tasks in their known
    shapes and leaves the screen state and the image path alone. *)
Lemma resume_classifier (models : list ModelInfo) (table : list string)
    (img : Image) (todo i : nat) (classes : list ClassInfo)
    (n : nat) (t : Task) (s : Sys) :
  origin t = FromCapture ->
  started_in t = LivePreview ->
  Forall (known_task models table) (tasks s) ->
  let s' :=
    resume n t
      (classes' <- classifier_loop models table todo i img classes ;;
       Do (setClassesInfo classes') (Do (image_release img) (Ret tt))) s in
  Forall (known_task models table) (tasks s') /\
  isCaptured (app (machine s')) = isCaptured (app (machine s)) /\
  currImage (app (machine s')) = currImage (app (machine s)).
Proof.
  intros Ho Hs Hwf. unfold resume.
  destruct (advance_classifier models table img todo i classes (machine s))
    as [(m' & Hadv & Hc & Hi) | (m' & p' & Hadv & Happ & Hk & _)];
    rewrite Hadv; simpl.
  - split; [now apply Forall_remove_nth |]. split; assumption.
  - rewrite Ho, Hs, Happ.
    split; [now apply Forall_replace_nth |]. split; reflexivity.
Qed.

(** Every step keeps the tasks in their known shapes and has the effect
    that [step_effect] lists for its label. *)
Lemma step_summary (models : list ModelInfo) (table : list string)
    (l : Label) (s s' : Sys) :
  well_formed models table s ->
  step models table l s = Some s' ->
  well_formed models table s' /\ step_effect l s s'.
Proof.
  unfold well_formed, step. intros Hwf Hstep.
  destruct (exited (machine s)); [discriminate |].
  destruct l as [image | img | | | mi | n | n path | n out | n | n].
  - (* onFrame *)
    injection Hstep as <-. unfold spawn, handleFrame.
    destruct (isCaptured (app (machine s))) eqn:Hc; simpl.
    + split; [assumption |]. split; [reflexivity | now apply quiet_same].
    + split.
      * apply Forall_app. split; [assumption |].
        repeat constructor.
      * split; [reflexivity |]. unfold quiet. simpl. intro Hq.
        apply Forall_app. split; [assumption |]. repeat constructor.
  - (* onCapture *)
    destruct (isCaptured (app (machine s))) eqn:Hc; [discriminate |].
    injection Hstep as <-. unfold spawn. simpl. split.
    + apply Forall_app. split; [assumption |].
      constructor; [| constructor].
      unfold screen. rewrite Hc. apply kt_toFile.
    + split; [assumption |]. split; [reflexivity |].
      unfold quiet. simpl. intro Hq.
      apply Forall_app. split; [assumption |]. repeat constructor.
  - (* pressReturn *)
    destruct (isCaptured (app (machine s))) eqn:Hc; [| discriminate].
    injection Hstep as <-. simpl. split; [assumption |].
    repeat split; assumption.
  - (* hardwareBackPress *)
    injection Hstep as <-. unfold backAction.
    destruct (isCaptured (app (machine s))) eqn:Hc; simpl;
      (split; [assumption |]); rewrite Hc; split; reflexivity.
  - (* onSelectModelInfo *)
    destruct (isCaptured (app (machine s))) eqn:Hc; [discriminate |].
    injection Hstep as <-. simpl. split; [assumption |].
    repeat split; assumption.
  - (* pressAlertButton *)
    destruct (alert (machine s)) as [buttons |]; [| discriminate].
    destruct (nth_error buttons n) as [b |]; [| discriminate].
    injection Hstep as <-.
    destruct (onPress b); simpl;
      (split; [assumption |]); (split; [reflexivity | now apply quiet_same]).
  - (* resolveToFile *)
    destruct (nth_error (tasks s) n) as [t |] eqn:Hn; [| discriminate].
    pose proof (Forall_nth_error _ Hwf Hn) as Hk.
    destruct Hk as [scr mi image | img | img todo i classes mi];
      simpl in Hstep; try discriminate.
    injection Hstep as <-.
    pose proof (@resume_classifier models table img 3 0 [] n
                  {| origin := FromCapture; started_in := LivePreview;
                     suspended := handleCapture models table img |}
                  {| machine :=
                       perform (setCurrImage ("file://" ++ path)%string)
                         (perform (setIsCaptured true) (machine s));
                     tasks := tasks s |}
                  eq_refl eq_refl Hwf) as (H1 & H2 & _).
    split; [exact H1 |].
    split; [exact H2 |].
    eexists. split; [exact Hn |]. split; reflexivity.
  - (* resolveExecute *)
    destruct (nth_error (tasks s) n) as [t |] eqn:Hn; [| discriminate].
    pose proof (Forall_nth_error _ Hwf Hn) as Hk.
    destruct Hk as [scr mi image | img | img todo i classes mi];
      simpl in Hstep; try discriminate.
    injection Hstep as <-.
    pose proof (@resume_classifier models table img todo i
                  (classes ++ [classRow table out]) n
                  {| origin := FromCapture; started_in := LivePreview;
                     suspended :=
                       AwaitExecute (model mi) img (fun out =>
                         classes' <-
                           classifier_loop models table todo i img
                             (classes ++ [classRow table out]) ;;
                         Do (setClassesInfo classes')
                           (Do (image_release img) (Ret tt))) |}
                  s eq_refl eq_refl Hwf) as (H1 & H2 & H3).
    split; [exact H1 |].
    split; [exact H2 |]. split; [exact H3 |].
    eexists. split; [exact Hn | reflexivity].
  - (* resolveProcessImage *)
    destruct (nth_error (tasks s) n) as [t |] eqn:Hn; [| discriminate].
    pose proof (Forall_nth_error _ Hwf Hn) as Hk.
    destruct Hk as [scr mi image | img | img todo i classes mi];
      simpl in Hstep; try discriminate.
    injection Hstep as <-. unfold resume. simpl.
    split; [now apply Forall_remove_nth |].
    split; [reflexivity | apply quiet_remove].
  - (* reject *)
    destruct (nth_error (tasks s) n) as [t |]; [| discriminate].
    injection Hstep as <-. simpl.
    split; [now apply Forall_remove_nth |].
    split; [reflexivity | apply quiet_remove].
Qed.

Lemma steps_well_formed (models : list ModelInfo) (table : list string) :
  forall ls s s',
    well_formed models table s ->
    steps models table ls s = Some s' ->
    well_formed models table s'.
Proof.
  induction ls as [| l ls IH]; intros s s' Hwf Hsteps; simpl in Hsteps.
  - now injection Hsteps as <-.
  - destruct (step models table l s) as [s1 |] eqn:Hstep; [| discriminate].
    apply (IH s1 s'); [| exact Hsteps].
    apply (step_summary l Hwf Hstep).
Qed.

Lemma reachable_well_formed (models : list ModelInfo) (table : list string)
    (s : Sys) :
  reachable models table s -> well_formed models table s.
Proof.
  intros [ls Hsteps].
  apply (steps_well_formed ls (s := initialSys models)); [| exact Hsteps].
  constructor.
Qed.

Lemma screen_LivePreview (st : AppState) :
  screen st = LivePreview <-> isCaptured st = false.
Proof. unfold screen. destruct (isCaptured st); split; congruence. Qed.

Lemma screen_Captured (st : AppState) :
  screen st = Captured <-> isCaptured st = true.
Proof. unfold screen. destruct (isCaptured st); split; congruence. Qed.

(** ** The screen state machine *)

(** C7: the app starts in LivePreview.  In the running app a step takes
    the screen from LivePreview to Captured only when it is the capture
    handler going on after its file write, for a capture that was started
    in LivePreview (and capture actions can be taken in LivePreview only);
    a step takes the screen from Captured to LivePreview only when it is a
    press on Return or on the hardware back button.  Both transitions do
    occur. *)
Theorem screen_transitions (models : list ModelInfo) (table : list string) :
  screen (app (machine (initialSys models))) = LivePreview /\
  (forall s l s',
     reachable models table s ->
     step models table l s = Some s' ->
     (screen (app (machine s)) = LivePreview ->
      screen (app (machine s')) = Captured ->
      exists n path t,
        l = resolveToFile n path /\
        nth_error (tasks s) n = Some t /\
        origin t = FromCapture /\
        started_in t = LivePreview) /\
     (screen (app (machine s)) = Captured ->
      screen (app (machine s')) = LivePreview ->
      l = pressReturn \/ l = hardwareBackPress) /\
     (forall img, l = onCapture img ->
        screen (app (machine s)) = LivePreview)) /\
  (forall img path,
     exists s s',
       steps models table [onCapture img; resolveToFile 0 path]
         (initialSys models) = Some s /\
       screen (app (machine s)) = Captured /\
       step models table pressReturn s = Some s' /\
       screen (app (machine s')) = LivePreview).
Proof.
  split; [reflexivity |]. split.
  - intros s l s' Hreach Hstep.
    pose proof (reachable_well_formed Hreach) as Hwf.
    destruct (step_summary l Hwf Hstep) as [_ Heff].
    rewrite !screen_LivePreview, !screen_Captured.
    split; [| split].
    + intros Hs Hs'.
      destruct l; simpl in Heff;
        try (destruct Heff as (Heq & _); rewrite Heq in Hs'; congruence).
      * destruct Heff as (_ & Heq & _). rewrite Heq in Hs'. congruence.
      * destruct Heff as (Hc & _). congruence.
      * destruct Heff as (_ & Heff). rewrite Hs in Heff.
        rewrite Heff in Hs'. congruence.
      * destruct Heff as (_ & Heq & _). rewrite Heq in Hs'. simpl in Hs'.
        congruence.
      * destruct Heff as (_ & t & Hn & Ho & Hst).
        exists n, path, t. repeat split; assumption.
    + intros Hs Hs'.
      destruct l; simpl in Heff; auto;
        try (destruct Heff as (Heq & _); rewrite Heq in Hs'; congruence).
      * destruct Heff as (Hc & _). congruence.
      * destruct Heff as (Hc & _). congruence.
    + intros img ->. simpl in Heff. apply screen_LivePreview. apply Heff.
  - intros img path.
    destruct models as [| mi models]; do 2 eexists;
      (split; [reflexivity |]); repeat split.
Qed.

Lemma screen_transitions_witness :
  exists s s',
    reachable sampleModels sampleClasses s /\
    step sampleModels sampleClasses
      (resolveToFile 0 "/tmp/photo.png"%string) s = Some s' /\
    screen (app (machine s)) = LivePreview /\
    screen (app (machine s')) = Captured /\
    exists n path t,
      resolveToFile 0 "/tmp/photo.png"%string = resolveToFile n path /\
      nth_error (tasks s) n = Some t /\
      origin t = FromCapture /\
      started_in t = LivePreview.
Proof.
  destruct (steps sampleModels sampleClasses [onCapture 7]
              (initialSys sampleModels)) as [s |] eqn:Hs;
    [| discriminate Hs].
  destruct (step sampleModels sampleClasses
              (resolveToFile 0 "/tmp/photo.png"%string) s) as [s' |] eqn:Hs';
    [| injection Hs as <-; discriminate Hs'].
  exists s, s'.
  assert (Hreach : reachable sampleModels sampleClasses s)
    by (exists [onCapture 7]; exact Hs).
  split; [exact Hreach |]. split; [exact Hs' |].
  assert (Hlive : screen (app (machine s)) = LivePreview)
    by (injection Hs as <-; reflexivity).
  assert (Hcap : screen (app (machine s')) = Captured)
    by (injection Hs as <-; injection Hs' as <-; reflexivity).
  split; [exact Hlive |]. split; [exact Hcap |].
  destruct (screen_transitions sampleModels sampleClasses) as (_ & H & _).
  destruct (H s _ s' Hreach Hs') as (Hup & _ & _).
  exact (Hup Hlive Hcap).
Defined.

(** ** Result list and image path outside the result screen *)

Lemma step_keeps_path_clean (models : list ModelInfo) (table : list string)
    (l : Label) (s s' : Sys) :
  well_formed models table s ->
  step models table l s = Some s' ->
  (isCaptured (app (machine s)) = false ->
   currImage (app (machine s)) = EmptyString) ->
  isCaptured (app (machine s')) = false ->
  currImage (app (machine s')) = EmptyString.
Proof.
  intros Hwf Hstep Hinv Hc'.
  destruct (step_summary l Hwf Hstep) as [_ Heff].
  destruct l; simpl in Heff;
    try (destruct Heff as (Heq & _); rewrite Heq in *; auto; fail).
  - destruct Heff as (_ & Heq & _). rewrite Heq in *. auto.
  - destruct Heff as (_ & Heq & _). rewrite Heq. reflexivity.
  - destruct Heff as (_ & Heff).
    destruct (isCaptured (app (machine s))); rewrite Heff in *; auto.
  - destruct Heff as (_ & Heq & _). rewrite Heq in *. simpl in *. auto.
  - destruct Heff as (Heq & _). congruence.
  - destruct Heff as (Hc & Hi & _). rewrite Hi. apply Hinv. congruence.
Qed.

Lemma step_keeps_preview_clean (models : list ModelInfo)
    (table : list string) (l : Label) (s s' : Sys) :
  well_formed models table s ->
  step models table l s = Some s' ->
  cuts_classification l s = false ->
  (isCaptured (app (machine s)) = false ->
   preview_is_clean (app (machine s)) /\
   Forall (fun t => classifying t = false) (tasks s)) ->
  isCaptured (app (machine s')) = false ->
  preview_is_clean (app (machine s')) /\
  Forall (fun t => classifying t = false) (tasks s').
Proof.
  intros Hwf Hstep Hcut Hinv Hc'.
  destruct (step_summary l Hwf Hstep) as [_ Heff].
  assert (Hclean : forall st, classesInfo st = [] -> currImage st = EmptyString ->
                              preview_is_clean st).
  { intros st H1 H2 _. split; assumption. }
  assert (Hret : is_return l = true ->
                 isCaptured (app (machine s)) = true ->
                 Forall (fun t => classifying t = false) (tasks s)).
  { intros Hr Hc. unfold cuts_classification in Hcut.
    rewrite Hr, Hc in Hcut. simpl in Hcut.
    now apply existsb_false_Forall. }
  destruct l; simpl in Heff.
  - destruct Heff as (Heq & Hq). rewrite Heq in *.
    destruct (Hinv Hc') as [H1 H2]. split; [exact H1 | exact (Hq H2)].
  - destruct Heff as (_ & Heq & Hq). rewrite Heq in *.
    destruct (Hinv Hc') as [H1 H2]. split; [exact H1 | exact (Hq H2)].
  - destruct Heff as (Hc & Heq & Ht). rewrite Heq, Ht.
    split; [apply Hclean; reflexivity | apply Hret; auto].
  - destruct Heff as (Ht & Heff). rewrite Ht.
    destruct (isCaptured (app (machine s))) eqn:Hc; rewrite Heff in *.
    + split; [apply Hclean; reflexivity | apply Hret; auto].
    + apply Hinv. reflexivity.
  - destruct Heff as (Hc & Heq & Ht). rewrite Heq, Ht.
    destruct (Hinv Hc) as [H1 H2]. split; [| exact H2].
    destruct (H1 Hc) as [H3 H4]. apply Hclean; assumption.
  - destruct Heff as (Heq & Hq). rewrite Heq in *.
    destruct (Hinv Hc') as [H1 H2]. split; [exact H1 | exact (Hq H2)].
  - destruct Heff as (Hc & _). congruence.
  - destruct Heff as (Hc & _ & t & Hn & Hcl).
    rewrite Hc in Hc'. destruct (Hinv Hc') as [_ H2].
    pose proof (Forall_nth_error _ H2 Hn) as Hno. simpl in Hno. congruence.
  - destruct Heff as (Heq & Hq). rewrite Heq in *.
    destruct (Hinv Hc') as [H1 H2]. split; [exact H1 | exact (Hq H2)].
  - destruct Heff as (Heq & Hq). rewrite Heq in *.
    destruct (Hinv Hc') as [H1 H2]. split; [exact H1 | exact (Hq H2)].
Qed.

Lemma steps_keep_path_clean (models : list ModelInfo) (table : list string) :
  forall ls s s',
    well_formed models table s ->
    steps models table ls s = Some s' ->
    (isCaptured (app (machine s)) = false ->
     currImage (app (machine s)) = EmptyString) ->
    isCaptured (app (machine s')) = false ->
    currImage (app (machine s')) = EmptyString.
Proof.
  induction ls as [| l ls IH]; intros s s' Hwf Hsteps Hinv; simpl in Hsteps.
  - injection Hsteps as <-. exact Hinv.
  - destruct (step models table l s) as [s1 |] eqn:Hstep; [| discriminate].
    apply (IH s1 s'); [| exact Hsteps |].
    + apply (step_summary l Hwf Hstep).
    + apply (step_keeps_path_clean l Hwf Hstep Hinv).
Qed.

Lemma steps_keep_preview_clean (models : list ModelInfo)
    (table : list string) :
  forall ls s s',
    well_formed models table s ->
    steps models table ls s = Some s' ->
    patient models table ls s = true ->
    (isCaptured (app (machine s)) = false ->
     preview_is_clean (app (machine s)) /\
     Forall (fun t => classifying t = false) (tasks s)) ->
    isCaptured (app (machine s')) = false ->
    preview_is_clean (app (machine s')) /\
    Forall (fun t => classifying t = false) (tasks s').
Proof.
  induction ls as [| l ls IH]; intros s s' Hwf Hsteps Hpat Hinv;
    simpl in Hsteps, Hpat.
  - injection Hsteps as <-. exact Hinv.
  - destruct (step models table l s) as [s1 |] eqn:Hstep; [| discriminate].
    apply andb_true_iff in Hpat. destruct Hpat as [Hcut Hpat].
    apply negb_true_iff in Hcut.
    apply (IH s1 s'); [| exact Hsteps | exact Hpat |].
    + apply (step_summary l Hwf Hstep).
    + apply (step_keeps_preview_clean l Hwf Hstep Hcut Hinv).
Qed.

(** C9 (as the code has it): in every state the running app can reach,
    LivePreview comes with an empty image path; it comes with an empty
    result list as well on every run in which Return (or hardware back) is
    never pressed while a capture's classification is still in flight. *)
Theorem preview_clean_on_patient_runs (models : list ModelInfo)
    (table : list string) (ls : list Label) (s : Sys) :
  steps models table ls (initialSys models) = Some s ->
  (isCaptured (app (machine s)) = false ->
   currImage (app (machine s)) = EmptyString) /\
  (patient models table ls (initialSys models) = true ->
   preview_is_clean (app (machine s))).
Proof.
  intro Hsteps.
  assert (Hwf : well_formed models table (initialSys models)) by constructor.
  split.
  - apply (steps_keep_path_clean ls Hwf Hsteps). reflexivity.
  - intros Hpat Hc.
    refine (proj1 (steps_keep_preview_clean ls Hwf Hsteps Hpat _ Hc) Hc).
    intros _. split; [| constructor].
    intros _. split; reflexivity.
Qed.

Lemma preview_clean_on_patient_runs_witness :
  exists s,
    steps sampleModels sampleClasses patientRun (initialSys sampleModels) =
      Some s /\
    patient sampleModels sampleClasses patientRun (initialSys sampleModels) =
      true /\
    isCaptured (app (machine s)) = false /\
    preview_is_clean (app (machine s)).
Proof.
  destruct (steps sampleModels sampleClasses patientRun
              (initialSys sampleModels)) as [s |] eqn:Hs;
    [| discriminate Hs].
  exists s.
  assert (Hpat : patient sampleModels sampleClasses patientRun
                   (initialSys sampleModels) = true) by reflexivity.
  split; [reflexivity |]. split; [exact Hpat |].
  split; [injection Hs as <-; reflexivity |].
  exact (proj2 (preview_clean_on_patient_runs sampleModels sampleClasses
                  patientRun Hs) Hpat).
Defined.

(** C9 as stated fails: pressing Return while the three models are still
    being asked brings the screen back to LivePreview, and the rows arrive
    afterwards; the app is then in LivePreview with three rows in its
    result list. *)
Lemma late_rows_in_live_preview :
  ~ (forall s, reachable sampleModels sampleClasses s ->
               preview_is_clean (app (machine s))) /\
  exists s,
    steps sampleModels sampleClasses hastyReturn (initialSys sampleModels) =
      Some s /\
    isCaptured (app (machine s)) = false /\
    List.length (classesInfo (app (machine s))) = 3.
Proof.
  destruct (steps sampleModels sampleClasses hastyReturn
              (initialSys sampleModels)) as [s |] eqn:Hs;
    [| discriminate Hs].
  assert (Hc : isCaptured (app (machine s)) = false)
    by (injection Hs as <-; reflexivity).
  assert (Hl : List.length (classesInfo (app (machine s))) = 3)
    by (injection Hs as <-; reflexivity).
  split.
  - intro H.
    assert (Hreach : reachable sampleModels sampleClasses s)
      by (exists hastyReturn; exact Hs).
    destruct (H s Hreach Hc) as [Hnil _].
    rewrite Hnil in Hl. discriminate Hl.
  - exists s. repeat split; assumption.
Qed.

(** ** The two semantics agree on a capture *)

(** Letting the environment settle the capture's four promises one after
    the other, with nothing in between, leaves the machine that [run]
    computes. *)
Lemma capture_steps_agree_with_run (models : list ModelInfo)
    (table : list string) (w : World) (img : Image) (s : Sys) (path : string)
    (mi0 mi1 mi2 : ModelInfo) (o0 o1 o2 : ExecuteOutput) :
  exited (machine s) = false ->
  isCaptured (app (machine s)) = false ->
  tasks s = [] ->
  toFile_result w img = Some path ->
  nth_error models 0 = Some mi0 ->
  nth_error models 1 = Some mi1 ->
  nth_error models 2 = Some mi2 ->
  execute_result w (model mi0) img = Some o0 ->
  execute_result w (model mi1) img = Some o1 ->
  execute_result w (model mi2) img = Some o2 ->
  steps models table
    [ onCapture img; resolveToFile 0 path; resolveExecute 0 o0;
      resolveExecute 0 o1; resolveExecute 0 o2 ] s =
  Some {| machine := snd (run w (handleCapture models table img) (machine s));
          tasks := [] |}.
Proof.
  intros He Hc Ht Hf H0 H1 H2 E0 E1 E2.
  rewrite (@run_handleCapture models table w img (machine s) path
             mi0 mi1 mi2 o0 o1 o2 Hf H0 H1 H2 E0 E1 E2).
  destruct s as [[[am ic ci cl] al ex lg] ts].
  simpl in He, Hc, Ht. subst ex ic ts.
  destruct models as [| a [| b [| c rest]]]; try discriminate.
  simpl in H0, H1, H2.
  injection H0 as ->. injection H1 as ->. injection H2 as ->.
  unfold steps, step.
  repeat (rewrite ?exited_record, ?exited_perform;
          with_strategy opaque [perform record] cbn).
  do 2 f_equal.
  apply machine_eq;
    repeat rewrite ?app_perform, ?alert_perform, ?exited_perform,
                   ?log_perform;
    cbn [record app alert exited log update activeModelInfo isCaptured
         currImage classesInfo];
    repeat rewrite ?app_perform, ?alert_perform, ?exited_perform,
                   ?log_perform;
    cbn [record app alert exited log update activeModelInfo isCaptured
         currImage classesInfo];
    try reflexivity.
  repeat rewrite <- app_assoc. reflexivity.
Qed.

(** ** When a call fails *)

(** What a handler resolves with does not depend on the machine it starts
    from: the programs never read the state. *)
Lemma run_result_any_machine (A : Type) (w : World) (p : Prog A) :
  forall m1 m2, fst (run w p m1) = fst (run w p m2).
Proof.
  induction p as [a | | a k IH | img k IH | mp image k IH | mi image k IH];
    intros m1 m2; simpl; try reflexivity.
  - apply IH.
  - destruct (toFile_result w img); [apply IH | reflexivity].
  - destruct (execute_result w mp image); [apply IH | reflexivity].
  - destruct (processImage_ok w mi image); [apply IH | reflexivity].
Qed.

Lemma classifier_resolves_then_answers (models : list ModelInfo)
    (table : list string) (w : World) (image : Image) (m : Machine)
    (classes : list ClassInfo) :
  fst (run w (classifier models table image) m) = Some classes ->
  (forall i, i < 3 -> answers models w image i) /\
  List.length classes = 3.
Proof.
  unfold classifier. cbn [classifier_loop].
  destruct (nth_error models 0) as [mi0 |] eqn:H0; [| discriminate].
  cbn [run].
  destruct (execute_result w (model mi0) image) as [o0 |] eqn:E0;
    [| discriminate].
  cbn [classifier_loop].
  destruct (nth_error models 1) as [mi1 |] eqn:H1; [| discriminate].
  cbn [run].
  destruct (execute_result w (model mi1) image) as [o1 |] eqn:E1;
    [| discriminate].
  cbn [classifier_loop].
  destruct (nth_error models 2) as [mi2 |] eqn:H2; [| discriminate].
  cbn [run].
  destruct (execute_result w (model mi2) image) as [o2 |] eqn:E2;
    [| discriminate].
  cbn [classifier_loop run]. intro Hres. injection Hres as <-.
  split; [| reflexivity].
  intros i Hi. unfold answers.
  destruct i as [| [| [| i]]]; [| | | lia]; eauto.
Qed.

Lemma answers_then_classifier_resolves (models : list ModelInfo)
    (table : list string) (w : World) (image : Image) (m : Machine) :
  (forall i, i < 3 -> answers models w image i) ->
  exists classes, fst (run w (classifier models table image) m) = Some classes.
Proof.
  intro H.
  destruct (H 0) as (mi0 & o0 & H0 & E0); [lia |].
  destruct (H 1) as (mi1 & o1 & H1 & E1); [lia |].
  destruct (H 2) as (mi2 & o2 & H2 & E2); [lia |].
  eexists.
  rewrite (@run_classifier models table w image m mi0 mi1 mi2 o0 o1 o2);
    [reflexivity | assumption ..].
Qed.

(** X1: the classifier resolves exactly when the registry has a first,
    second and third model and each of them answers for the image; it then
    resolves with three rows.  In every other case its promise rejects. *)
Theorem classifier_resolves_iff (models : list ModelInfo)
    (table : list string) (w : World) (image : Image) (m : Machine) :
  ((exists classes,
      fst (run w (classifier models table image) m) = Some classes) <->
   (forall i, i < 3 -> answers models w image i)) /\
  (forall classes,
     fst (run w (classifier models table image) m) = Some classes ->
     List.length classes = 3) /\
  (~ (forall i, i < 3 -> answers models w image i) ->
   fst (run w (classifier models table image) m) = None).
Proof.
  split; [split |].
  - intros [classes Hres].
    apply (classifier_resolves_then_answers _ _ _ _ _ Hres).
  - apply answers_then_classifier_resolves.
  - split.
    + intros classes Hres.
      apply (classifier_resolves_then_answers _ _ _ _ _ Hres).
    + intro Hno.
      destruct (fst (run w (classifier models table image) m))
        as [classes |] eqn:Hres; [| reflexivity].
      exfalso. apply Hno.
      apply (classifier_resolves_then_answers _ _ _ _ _ Hres).
Qed.

Lemma classifier_resolves_iff_witness :
  ~ (forall i, i < 3 -> answers sampleModels failingWorld 7 i) /\
  fst (run failingWorld (classifier sampleModels sampleClasses 7)
         sampleMachine) = None.
Proof.
  assert (Hno : ~ (forall i, i < 3 -> answers sampleModels failingWorld 7 i)).
  { intro H. destruct (H 0) as (mi & out & _ & E); [lia |]. discriminate E. }
  split; [exact Hno |].
  apply (proj2 (proj2 (classifier_resolves_iff sampleModels sampleClasses
                         failingWorld 7 sampleMachine))).
  exact Hno.
Defined.

(** X2: the classifier stops at the first model that rejects: when model
    [k] is the first of the three to reject, the calls made are those for
    models 0 to [k], in registry order, no later model is asked, the
    promise rejects and no state variable has changed. *)
Theorem classifier_stops_at_first_rejection (models : list ModelInfo)
    (table : list string) (w : World) (image : Image) (m : Machine)
    (k : nat) (mi : ModelInfo) :
  k < 3 ->
  nth_error models k = Some mi ->
  execute_result w (model mi) image = None ->
  (forall i, i < k -> answers models w image i) ->
  fst (run w (classifier models table image) m) = None /\
  log (snd (run w (classifier models table image) m)) =
    log m ++ map (call_of image) (firstn (S k) models) /\
  app (snd (run w (classifier models table image) m)) = app m.
Proof.
  intros Hk Hn Hrej Hbefore.
  unfold classifier.
  destruct k as [| [| [| k]]]; [| | | lia].
  - destruct models as [| a rest]; [discriminate |].
    injection Hn as ->.
    cbn [classifier_loop nth_error run]. rewrite Hrej.
    repeat split.
  - destruct (Hbefore 0) as (mi0 & o0 & H0 & E0); [lia |].
    destruct models as [| a [| b rest]]; try discriminate.
    injection H0 as ->. injection Hn as ->.
    cbn [classifier_loop nth_error run]. rewrite E0.
    cbn [classifier_loop nth_error run]. rewrite Hrej.
    split; [reflexivity |]. split; [| reflexivity].
    simpl. rewrite <- app_assoc. reflexivity.
  - destruct (Hbefore 0) as (mi0 & o0 & H0 & E0); [lia |].
    destruct (Hbefore 1) as (mi1 & o1 & H1 & E1); [lia |].
    destruct models as [| a [| b [| c rest]]]; try discriminate.
    injection H0 as ->. injection H1 as ->. injection Hn as ->.
    cbn [classifier_loop nth_error run]. rewrite E0.
    cbn [classifier_loop nth_error run]. rewrite E1.
    cbn [classifier_loop nth_error run]. rewrite Hrej.
    split; [reflexivity |]. split; [| reflexivity].
    simpl. rewrite <- !app_assoc. reflexivity.
Qed.

Lemma classifier_stops_at_first_rejection_witness :
  1 < 3 /\
  nth_error sampleModels 1 <> None /\
  fst (run secondRejects (classifier sampleModels sampleClasses 7)
         sampleMachine) = None.
Proof.
  split; [lia |]. split; [discriminate |].
  refine (proj1 (@classifier_stops_at_first_rejection sampleModels
                   sampleClasses secondRejects 7 sampleMachine 1 _ _
                   eq_refl eq_refl _)).
  - lia.
  - intros i Hi. destruct i as [| i]; [| lia].
    unfold answers. eexists. exists sampleOutput. split; reflexivity.
Defined.

(** X3: with fewer than three registered models, all of which answer, the
    classifier asks every registered model once, in order, and then fails
    on the missing entry: its promise rejects and no state variable has
    changed. *)
Theorem classifier_short_registry (models : list ModelInfo)
    (table : list string) (w : World) (image : Image) (m : Machine) :
  List.length models < 3 ->
  (forall i, i < List.length models -> answers models w image i) ->
  fst (run w (classifier models table image) m) = None /\
  log (snd (run w (classifier models table image) m)) =
    log m ++ map (call_of image) models /\
  app (snd (run w (classifier models table image) m)) = app m.
Proof.
  intros Hlen Hall. unfold classifier.
  destruct models as [| a [| b [| c rest]]]; simpl in Hlen; [| | | lia].
  - cbn [classifier_loop nth_error run]. rewrite app_nil_r. repeat split.
  - destruct (Hall 0) as (mi0 & o0 & H0 & E0); [simpl; lia |].
    injection H0 as <-.
    cbn [classifier_loop nth_error run]. rewrite E0.
    cbn [classifier_loop nth_error run]. repeat split.
  - destruct (Hall 0) as (mi0 & o0 & H0 & E0); [simpl; lia |].
    destruct (Hall 1) as (mi1 & o1 & H1 & E1); [simpl; lia |].
    injection H0 as <-. injection H1 as <-.
    cbn [classifier_loop nth_error run]. rewrite E0.
    cbn [classifier_loop nth_error run]. rewrite E1.
    cbn [classifier_loop nth_error run].
    split; [reflexivity |]. split; [| reflexivity].
    simpl. rewrite <- app_assoc. reflexivity.
Qed.

Lemma classifier_short_registry_witness :
  List.length (firstn 2 sampleModels) < 3 /\
  fst (run sampleWorld (classifier (firstn 2 sampleModels) sampleClasses 7)
         sampleMachine) = None /\
  log (snd (run sampleWorld
              (classifier (firstn 2 sampleModels) sampleClasses 7)
              sampleMachine)) =
    log sampleMachine ++ map (call_of 7) (firstn 2 sampleModels).
Proof.
  assert (Hlen : List.length (firstn 2 sampleModels) < 3) by (simpl; lia).
  split; [exact Hlen |].
  assert (Hall : forall i, i < List.length (firstn 2 sampleModels) ->
                           answers (firstn 2 sampleModels) sampleWorld 7 i).
  { intros i Hi. simpl in Hi. unfold answers.
    destruct i as [| [| i]]; [| | lia];
      (eexists; exists sampleOutput; split; reflexivity). }
  pose proof (@classifier_short_registry (firstn 2 sampleModels)
                sampleClasses sampleWorld 7 sampleMachine Hlen Hall)
    as (H1 & H2 & _).
  split; [exact H1 | exact H2].
Defined.

(** A capture whose file is written but whose classifier rejects. *)
Lemma handleCapture_classifier_rejects (models : list ModelInfo)
    (table : list string) (w : World) (img : Image) (m : Machine)
    (path : string) :
  toFile_result w img = Some path ->
  ~ (forall i, i < 3 -> answers models w img i) ->
  fst (run w (handleCapture models table img) m) = None /\
  isCaptured (app (snd (run w (handleCapture models table img) m))) = true /\
  currImage (app (snd (run w (handleCapture models table img) m))) =
    ("file://" ++ path)%string /\
  classesInfo (app (snd (run w (handleCapture models table img) m))) =
    classesInfo (app m) /\
  activeModelInfo (app (snd (run w (handleCapture models table img) m))) =
    activeModelInfo (app m) /\
  exists tr,
    log (snd (run w (handleCapture models table img) m)) = log m ++ tr /\
    releases img tr = 0.
Proof.
  intros Hf Hno.
  unfold handleCapture. cbn [run]. rewrite Hf. cbn [run].
  rewrite run_bind.
  set (m2 := perform _ (perform _ _)).
  destruct (@classifier_loop_quiet models table w img img 3 0 [] m2)
    as (tr & Hlog & Hrel & Happ).
  fold (classifier models table img) in Hlog, Happ.
  destruct (run w (classifier models table img) m2) as [[classes |] m3]
    eqn:Hrun.
  - exfalso. apply Hno.
    apply (@classifier_resolves_then_answers models table w img m2 classes).
    now rewrite Hrun.
  - simpl in Hlog, Happ. simpl. rewrite Happ.
    repeat (split; [reflexivity |]).
    exists ([EvCall (ImageUtil_toFile img); EvDo (setIsCaptured true);
             EvDo (setCurrImage ("file://" ++ path)%string)] ++ tr).
    split.
    + rewrite Hlog. subst m2. simpl. rewrite <- !app_assoc. reflexivity.
    + rewrite releases_app, Hrel. reflexivity.
Qed.

(** X4: a capture that fails.  When the file write rejects, the handler
    stops there: no state variable changes and no model is asked.  When the
    file is written but the classifier rejects, the handler's promise
    rejects with the screen already Captured and the image path set, while
    the result list is what it was before and the photo has not been
    released. *)
Theorem capture_failure (models : list ModelInfo) (table : list string)
    (w : World) (img : Image) (m : Machine) :
  (toFile_result w img = None ->
   run w (handleCapture models table img) m =
     (None, record (EvCall (ImageUtil_toFile img)) m)) /\
  (forall path,
     toFile_result w img = Some path ->
     ~ (forall i, i < 3 -> answers models w img i) ->
     let r := run w (handleCapture models table img) m in
     fst r = None /\
     isCaptured (app (snd r)) = true /\
     currImage (app (snd r)) = ("file://" ++ path)%string /\
     classesInfo (app (snd r)) = classesInfo (app m) /\
     activeModelInfo (app (snd r)) = activeModelInfo (app m) /\
     exists tr, log (snd r) = log m ++ tr /\ releases img tr = 0).
Proof.
  split.
  - intro Hf. unfold handleCapture. cbn [run]. now rewrite Hf.
  - intros path Hf Hno r. subst r.
    apply (@handleCapture_classifier_rejects models table w img m path
             Hf Hno).
Qed.

Lemma capture_failure_witness :
  toFile_result failingWorld 7 = Some "/tmp/photo.png"%string /\
  ~ (forall i, i < 3 -> answers sampleModels failingWorld 7 i) /\
  fst (run failingWorld (handleCapture sampleModels sampleClasses 7)
         sampleMachine) = None /\
  isCaptured (app (snd (run failingWorld
                          (handleCapture sampleModels sampleClasses 7)
                          sampleMachine))) = true.
Proof.
  assert (Hno : ~ (forall i, i < 3 -> answers sampleModels failingWorld 7 i)).
  { intro H. destruct (H 0) as (mi & out & _ & E); [lia |]. discriminate E. }
  split; [reflexivity |]. split; [exact Hno |].
  pose proof (proj2 (@capture_failure sampleModels sampleClasses failingWorld
                       7 sampleMachine) _ eq_refl Hno) as H.
  cbv zeta in H. destruct H as (H1 & H2 & _).
  split; [exact H1 | exact H2].
Defined.

(** ** Every step, outcome by outcome *)

Lemma Forall_scheduled_app (models : list ModelInfo) (table : list string)
    (l : list Task) (t : Task) :
  Forall (scheduled_task models table) l ->
  scheduled_task models table t ->
  Forall (scheduled_task models table) (l ++ [t]).
Proof.
  intros Hl Ht. apply Forall_app. split; [exact Hl | now constructor].
Qed.

(** A step from a state with scheduled tasks is one of the outcomes listed
    by [occurs], and leaves the tasks scheduled. *)
Lemma step_occurs (models : list ModelInfo) (table : list string)
    (l : Label) (s s' : Sys) :
  scheduled models table s ->
  step models table l s = Some s' ->
  occurs models table l s s' /\ scheduled models table s'.
Proof.
  unfold scheduled, step. intros Hwf Hstep.
  destruct (exited (machine s)) eqn:He; [discriminate |].
  destruct l as [image | img | | | mi | n | n path | n out | n | n].
  - (* onFrame *)
    injection Hstep as <-. unfold spawn, handleFrame.
    destruct (isCaptured (app (machine s))) eqn:Hc.
    + split; [now apply oc_frame_skipped | exact Hwf].
    + cbn [advance]. unfold screen. rewrite Hc. split.
      * now apply oc_frame_parked.
      * apply Forall_scheduled_app; [exact Hwf | apply sch_frame].
  - (* onCapture *)
    destruct (isCaptured (app (machine s))) eqn:Hc; [discriminate |].
    injection Hstep as <-. unfold spawn.
    cbn [advance handleCapture]. unfold screen. rewrite Hc. split.
    + now apply oc_capture_parked.
    + apply Forall_scheduled_app; [exact Hwf | apply sch_toFile].
  - (* pressReturn *)
    destruct (isCaptured (app (machine s))) eqn:Hc; [| discriminate].
    injection Hstep as <-. split; [| exact Hwf].
    apply (@oc_return models table); auto.
  - (* hardwareBackPress *)
    injection Hstep as <-. unfold backAction.
    destruct (isCaptured (app (machine s))) eqn:Hc.
    + split; [| exact Hwf]. apply (@oc_return models table); auto.
    + split; [| exact Hwf]. now apply oc_back_dialog.
  - (* onSelectModelInfo *)
    destruct (isCaptured (app (machine s))) eqn:Hc; [discriminate |].
    injection Hstep as <-. split; [| exact Hwf]. now apply oc_select.
  - (* pressAlertButton *)
    destruct (alert (machine s)) as [buttons |] eqn:Ha; [| discriminate].
    destruct (nth_error buttons n) as [b |] eqn:Hb; [| discriminate].
    injection Hstep as <-.
    pose proof (@oc_dialog_button models table n buttons b s Ha Hb) as Hoc.
    unfold alertClosed in Hoc. rewrite He in Hoc.
    split.
    + destruct (onPress b); exact Hoc.
    + destruct (onPress b); exact Hwf.
  - (* resolveToFile *)
    destruct (nth_error (tasks s) n) as [t |] eqn:Hn; [| discriminate].
    pose proof (Forall_nth_error _ Hwf Hn) as Hk.
    destruct Hk as [scr act image | img | img todo i classes mi Hi Hlen Hrows Hmi];
      simpl in Hstep; try discriminate.
    injection Hstep as <-. unfold resume.
    cbn [suspended captureTask handleCapture advance bind classifier
         classifier_loop origin started_in].
    destruct (nth_error models 0) as [mi |] eqn:H0; cbn [bind advance].
    + split.
      * eapply oc_file_written; eassumption.
      * cbn [tasks]. apply Forall_replace_nth; [| exact Hwf].
        apply (@sch_execute models table img 2 0 [] mi); auto.
    + split.
      * eapply oc_file_written_no_model; eassumption.
      * cbn [tasks]. now apply Forall_remove_nth.
  - (* resolveExecute *)
    destruct (nth_error (tasks s) n) as [t |] eqn:Hn; [| discriminate].
    pose proof (Forall_nth_error _ Hwf Hn) as Hk.
    destruct Hk as [scr act image | img | img todo i classes mi Hi Hlen Hrows Hmi];
      simpl in Hstep; try discriminate.
    injection Hstep as <-. unfold resume.
    assert (Hrows' : Forall (is_row table) (classes ++ [classRow table out])).
    { apply Forall_app. split; [exact Hrows |].
      constructor; [now exists out | constructor]. }
    destruct todo as [| todo].
    + cbn [classifier_loop bind advance]. split.
      * eapply oc_rows_stored; [exact Hn | lia | exact Hrows].
      * cbn [tasks]. now apply Forall_remove_nth.
    + cbn [classifier_loop].
      destruct (nth_error models (S i)) as [mi' |] eqn:Hnext;
        cbn [bind advance].
      * split.
        -- eapply oc_row_next;
             [exact Hn | lia | exact Hlen | exact Hrows | exact Hnext].
        -- cbn [tasks]. apply Forall_replace_nth; [| exact Hwf].
           apply (@sch_execute models table img todo (S i)
                    (classes ++ [classRow table out]) mi');
             [lia | rewrite length_app; simpl; lia | exact Hrows' | exact Hnext].
      * split.
        -- eapply oc_row_no_model; [exact Hn | exact Hi | exact Hnext].
        -- cbn [tasks]. now apply Forall_remove_nth.
  - (* resolveProcessImage *)
    destruct (nth_error (tasks s) n) as [t |] eqn:Hn; [| discriminate].
    pose proof (Forall_nth_error _ Hwf Hn) as Hk.
    destruct Hk as [scr act image | img | img todo i classes mi Hi Hlen Hrows Hmi];
      simpl in Hstep; try discriminate.
    injection Hstep as <-. unfold resume. cbn [advance]. split.
    + eapply oc_frame_done; exact Hn.
    + cbn [tasks]. now apply Forall_remove_nth.
  - (* reject *)
    destruct (nth_error (tasks s) n) as [t |] eqn:Hn; [| discriminate].
    injection Hstep as <-. split.
    + eapply oc_rejected; exact Hn.
    + cbn [tasks]. now apply Forall_remove_nth.
Qed.

Lemma steps_scheduled (models : list ModelInfo) (table : list string) :
  forall ls s s',
    scheduled models table s ->
    steps models table ls s = Some s' ->
    scheduled models table s'.
Proof.
  induction ls as [| l ls IH]; intros s s' Hwf Hsteps; simpl in Hsteps.
  - now injection Hsteps as <-.
  - destruct (step models table l s) as [s1 |] eqn:Hstep; [| discriminate].
    apply (IH s1 s'); [| exact Hsteps].
    apply (step_occurs l Hwf Hstep).
Qed.

Lemma initial_scheduled (models : list ModelInfo) (table : list string) :
  scheduled models table (initialSys models).
Proof. constructor. Qed.

(** ** No frame is released twice, none is lost without a failure *)

Lemma held_remove_nth (image : Image) (t : Task) :
  forall n l,
    nth_error l n = Some t ->
    List.length (filter (holds image) (remove_nth n l)) +
      Nat.b2n (holds image t) =
    List.length (filter (holds image) l).
Proof.
  induction n as [| n IH]; intros [| t' l] Hn; simpl in Hn; try discriminate.
  - injection Hn as ->. simpl. destruct (holds image t); simpl; lia.
  - specialize (IH l Hn). simpl.
    destruct (holds image t'); simpl; lia.
Qed.

Lemma held_replace_nth (image : Image) (t t' : Task) :
  forall n l,
    nth_error l n = Some t ->
    List.length (filter (holds image) (replace_nth n t' l)) +
      Nat.b2n (holds image t) =
    List.length (filter (holds image) l) + Nat.b2n (holds image t').
Proof.
  induction n as [| n IH]; intros [| t0 l] Hn; simpl in Hn; try discriminate.
  - injection Hn as ->. simpl.
    destruct (holds image t), (holds image t'); simpl; lia.
  - specialize (IH l Hn). simpl.
    destruct (holds image t0); simpl; lia.
Qed.

Lemma held_app (image : Image) (l : list Task) (t : Task) :
  List.length (filter (holds image) (l ++ [t])) =
  List.length (filter (holds image) l) + Nat.b2n (holds image t).
Proof.
  rewrite filter_app, length_app. simpl.
  destruct (holds image t); reflexivity.
Qed.

Lemma releases_perform (image : Image) (a : Action) (m : Machine) :
  releases image (log (perform a m)) =
  releases image (log m) + Nat.b2n (is_release image (EvDo a)).
Proof.
  rewrite log_perform, releases_app. unfold releases at 2. simpl.
  destruct a; simpl; try reflexivity.
  destruct (Nat.eqb image0 image); reflexivity.
Qed.

Lemma releases_record_call (image : Image) (c : Call) (m : Machine) :
  releases image (log (record (EvCall c) m)) = releases image (log m).
Proof.
  simpl. rewrite releases_app. unfold releases at 2. simpl. lia.
Qed.

(** One step: releases and handlers in flight together grow by at most the
    frames handed in, and by exactly that much when nothing fails. *)
Lemma step_accounts (models : list ModelInfo) (table : list string)
    (image : Image) (l : Label) (s s' : Sys) :
  occurs models table l s s' ->
  releases image (log (machine s')) + in_flight image s' <=
    releases image (log (machine s)) + in_flight image s +
    delivers image l /\
  (3 <= List.length models -> is_reject l = false ->
   releases image (log (machine s')) + in_flight image s' =
     releases image (log (machine s)) + in_flight image s +
     delivers image l).
Proof.
  intro Hoc. unfold in_flight.
  destruct Hoc; cbn [machine tasks delivers is_reject];
    unfold call_of;
    repeat rewrite ?releases_perform, ?releases_record_call;
    rewrite ?held_app;
    try match goal with
        | Hn : nth_error (tasks _) _ = Some _ |- context [remove_nth _ _] =>
            pose proof (held_remove_nth image _ _ Hn) as Hheld
        | Hn : nth_error (tasks _) _ = Some _
          |- context [replace_nth _ ?t' _] =>
            pose proof (held_replace_nth image t' _ _ Hn) as Hheld
        end;
    cbn [is_release holds suspended frameTask captureTask handleCapture
         awaitingModel Nat.b2n] in *.
  all: try (split; [lia | intros; lia]).
  - destruct H as [-> | ->]; cbn [delivers is_reject];
      (split; [lia | intros; lia]).
  - destruct (onPress b); unfold alertClosed;
      rewrite ?releases_perform; cbn [log is_release Nat.b2n];
      (split; [lia | intros; lia]).
  - split; [lia |]. intros Hlen _.
    match goal with
    | Hnone : nth_error models _ = None |- _ =>
        apply nth_error_None in Hnone; lia
    end.
  - split; [lia |]. intros Hlen _.
    match goal with
    | Hnone : nth_error models _ = None |- _ =>
        apply nth_error_None in Hnone; lia
    end.
Qed.

Lemma steps_account (models : list ModelInfo) (table : list string)
    (image : Image) :
  forall ls s s',
    scheduled models table s ->
    steps models table ls s = Some s' ->
    releases image (log (machine s')) + in_flight image s' <=
      releases image (log (machine s)) + in_flight image s +
      delivered image ls /\
    (3 <= List.length models -> existsb is_reject ls = false ->
     releases image (log (machine s')) + in_flight image s' =
       releases image (log (machine s)) + in_flight image s +
       delivered image ls).
Proof.
  induction ls as [| l ls IH]; intros s s' Hwf Hsteps; simpl in Hsteps.
  - injection Hsteps as <-. simpl. split; [lia | intros; lia].
  - destruct (step models table l s) as [s1 |] eqn:Hstep; [| discriminate].
    destruct (step_occurs l Hwf Hstep) as [Hoc Hwf1].
    destruct (step_accounts image Hoc) as [Hle Heq].
    destruct (IH s1 s' Hwf1 Hsteps) as [Hle' Heq'].
    simpl. split; [lia |].
    intros Hlen Hrej. apply orb_false_iff in Hrej. destruct Hrej as [Hr Hrs].
    specialize (Heq Hlen Hr). specialize (Heq' Hlen Hrs). lia.
Qed.

(** X5: no frame is released twice.  Along every run of the app, and for
    every image, the number of [release()] calls made for it plus the
    number of handlers still in flight for it never exceeds the number of
    times it was handed to [handleFrame] or [handleCapture]. *)
Theorem no_double_release (models : list ModelInfo) (table : list string)
    (image : Image) (ls : list Label) (s : Sys) :
  steps models table ls (initialSys models) = Some s ->
  releases image (log (machine s)) + in_flight image s <=
    delivered image ls.
Proof.
  intro Hsteps.
  destruct (steps_account image ls (initial_scheduled models table) Hsteps)
    as [Hle _].
  exact Hle.
Qed.

Lemma no_double_release_witness :
  exists s,
    steps sampleModels sampleClasses hastyReturn (initialSys sampleModels) =
      Some s /\
    releases 7 (log (machine s)) + in_flight 7 s <= delivered 7 hastyReturn.
Proof.
  destruct (steps sampleModels sampleClasses hastyReturn
              (initialSys sampleModels)) as [s |] eqn:Hs;
    [| discriminate Hs].
  exists s. split; [reflexivity |].
  exact (@no_double_release sampleModels sampleClasses 7 hastyReturn s Hs).
Defined.

(** X6: no frame is lost unless something fails.  When the registry has at
    least three models and no promise is rejected, then at every point of a
    run every image handed to a handler has been released exactly once or
    is still held by a handler in flight: releases plus handlers in flight
    equal the number of deliveries.  In particular, once nothing is in
    flight each delivered frame has been released exactly once. *)
Theorem no_frame_lost_without_failure (models : list ModelInfo)
    (table : list string) (image : Image) (ls : list Label) (s : Sys) :
  3 <= List.length models ->
  existsb is_reject ls = false ->
  steps models table ls (initialSys models) = Some s ->
  releases image (log (machine s)) + in_flight image s =
    delivered image ls /\
  (tasks s = [] -> releases image (log (machine s)) = delivered image ls).
Proof.
  intros Hlen Hrej Hsteps.
  destruct (steps_account image ls (initial_scheduled models table) Hsteps)
    as [_ Heq].
  specialize (Heq Hlen Hrej). simpl in Heq.
  split; [exact Heq |].
  intro Hno. unfold in_flight in Heq. rewrite Hno in Heq. simpl in Heq. lia.
Qed.

Lemma no_frame_lost_without_failure_witness :
  3 <= List.length sampleModels /\
  existsb is_reject patientRun = false /\
  exists s,
    steps sampleModels sampleClasses patientRun (initialSys sampleModels) =
      Some s /\
    releases 7 (log (machine s)) = delivered 7 patientRun.
Proof.
  split; [simpl; lia |]. split; [reflexivity |].
  destruct (steps sampleModels sampleClasses patientRun
              (initialSys sampleModels)) as [s |] eqn:Hs;
    [| discriminate Hs].
  exists s. split; [reflexivity |].
  assert (Hlen : 3 <= List.length sampleModels) by (simpl; lia).
  apply (proj2 (@no_frame_lost_without_failure sampleModels sampleClasses 7
                  patientRun s Hlen eq_refl Hs)).
  injection Hs as <-. reflexivity.
Defined.

(** ** The quit dialog *)

Lemma step_not_exited (models : list ModelInfo) (table : list string)
    (l : Label) (s s' : Sys) :
  step models table l s = Some s' -> exited (machine s) = false.
Proof.
  unfold step. destruct (exited (machine s)); [discriminate | reflexivity].
Qed.

Lemma occurs_dialog (models : list ModelInfo) (table : list string)
    (l : Label) (s s' : Sys) :
  occurs models table l s s' ->
  exited (machine s) = false ->
  quit_dialog_or_none (machine s) ->
  quit_dialog_or_none (machine s') /\
  (exited (machine s') = true ->
   l = pressAlertButton 1 /\ alert (machine s) = Some quitButtons) /\
  (alert (machine s) = None -> alert (machine s') <> None ->
   l = hardwareBackPress /\ isCaptured (app (machine s)) = false).
Proof.
  intros Hoc He Hd. unfold quit_dialog_or_none in *.
  destruct Hoc; simpl; rewrite ?He;
    try (split; [exact Hd | split; [discriminate | intros Ha Hb; congruence]]).
  - (* back in LivePreview *)
    split; [now right |]. split; [discriminate | auto].
  - (* a button of the dialog *)
    destruct Hd as [Hd | Hd]; [congruence |].
    assert (Hbs : buttons = quitButtons) by congruence. subst buttons.
    destruct n as [| [| n]]; simpl in H0.
    + injection H0 as <-. simpl. rewrite He.
      split; [now left |]. split; [discriminate | congruence].
    + injection H0 as <-. simpl.
      split; [now left |]. split; [auto | congruence].
    + destruct n; discriminate.
Qed.

Lemma steps_dialog (models : list ModelInfo) (table : list string) :
  forall ls s s',
    scheduled models table s ->
    quit_dialog_or_none (machine s) ->
    steps models table ls s = Some s' ->
    quit_dialog_or_none (machine s').
Proof.
  induction ls as [| l ls IH]; intros s s' Hwf Hd Hsteps; simpl in Hsteps.
  - now injection Hsteps as <-.
  - destruct (step models table l s) as [s1 |] eqn:Hstep; [| discriminate].
    destruct (step_occurs l Hwf Hstep) as [Hoc Hwf1].
    apply (IH s1 s' Hwf1); [| exact Hsteps].
    apply (occurs_dialog Hoc (step_not_exited _ _ _ _ Hstep) Hd).
Qed.

(** X7: the only alert the running app ever shows is the quit dialog.  The
    dialog is opened by nothing but a hardware back press in LivePreview,
    the back press itself never exits the app, and the app exits only by a
    press on the dialog's second button, YES. *)
Theorem exit_only_through_quit_dialog (models : list ModelInfo)
    (table : list string) (ls : list Label) (s : Sys) :
  steps models table ls (initialSys models) = Some s ->
  quit_dialog_or_none (machine s) /\
  forall l s',
    step models table l s = Some s' ->
    (exited (machine s') = true ->
     l = pressAlertButton 1 /\ alert (machine s) = Some quitButtons) /\
    (alert (machine s) = None -> alert (machine s') <> None ->
     l = hardwareBackPress /\ isCaptured (app (machine s)) = false) /\
    (l = hardwareBackPress -> exited (machine s') = false).
Proof.
  intro Hsteps.
  pose proof (steps_scheduled ls (initial_scheduled models table) Hsteps)
    as Hwf.
  assert (Hd : quit_dialog_or_none (machine s)).
  { apply (steps_dialog ls (initial_scheduled models table)); [| exact Hsteps].
    now left. }
  split; [exact Hd |].
  intros l s' Hstep.
  destruct (step_occurs l Hwf Hstep) as [Hoc _].
  pose proof (step_not_exited _ _ _ _ Hstep) as He.
  destruct (occurs_dialog Hoc He Hd) as (_ & Hexit & Hopen).
  split; [exact Hexit |]. split; [exact Hopen |].
  intros ->.
  destruct (exited (machine s')) eqn:He'; [| reflexivity].
  destruct (Hexit eq_refl) as [Hl _]. discriminate Hl.
Qed.

Lemma exit_only_through_quit_dialog_witness :
  exists s s',
    steps sampleModels sampleClasses [hardwareBackPress]
      (initialSys sampleModels) = Some s /\
    step sampleModels sampleClasses (pressAlertButton 1) s = Some s' /\
    exited (machine s') = true /\
    alert (machine s) = Some quitButtons.
Proof.
  destruct (steps sampleModels sampleClasses [hardwareBackPress]
              (initialSys sampleModels)) as [s |] eqn:Hs;
    [| discriminate Hs].
  destruct (step sampleModels sampleClasses (pressAlertButton 1) s)
    as [s' |] eqn:Hs'; [| injection Hs as <-; discriminate Hs'].
  exists s, s'.
  assert (He : exited (machine s') = true)
    by (injection Hs as <-; injection Hs' as <-; reflexivity).
  split; [reflexivity |]. split; [exact Hs' |]. split; [exact He |].
  destruct (@exit_only_through_quit_dialog sampleModels sampleClasses
              [hardwareBackPress] s Hs) as [_ H].
  destruct (H _ _ Hs') as [Hexit _].
  exact (proj2 (Hexit He)).
Defined.

(** ** Which step writes which state variable *)




(** ** What the screen shows *)

Lemma occurs_view (models : list ModelInfo) (table : list string)
    (l : Label) (s s' : Sys) :
  occurs models table l s s' ->
  captured_has_path (app (machine s)) ->
  none_or_three_rows table (app (machine s)) ->
  captured_has_path (app (machine s')) /\
  none_or_three_rows table (app (machine s')).
Proof.
  intros Hoc Hp Hr. unfold captured_has_path, none_or_three_rows in *.
  destruct Hoc; simpl; try (split; assumption).
  - (* Return, hardware back *)
    split; [discriminate | now left].
  - (* a button of the dialog *)
    destruct (onPress b); simpl; split; assumption.
  - (* the file is written *)
    split; [intros _; now exists path | exact Hr].
  - split; [intros _; now exists path | exact Hr].
  - (* the third row *)
    split; [exact Hp |]. right. split.
    + rewrite length_app. simpl. lia.
    + apply Forall_app. split; [assumption |].
      constructor; [now exists out | constructor].
Qed.

Lemma steps_view (models : list ModelInfo) (table : list string) :
  forall ls s s',
    scheduled models table s ->
    captured_has_path (app (machine s)) ->
    none_or_three_rows table (app (machine s)) ->
    steps models table ls s = Some s' ->
    captured_has_path (app (machine s')) /\
    none_or_three_rows table (app (machine s')).
Proof.
  induction ls as [| l ls IH]; intros s s' Hwf Hp Hr Hsteps; simpl in Hsteps.
  - injection Hsteps as <-. split; assumption.
  - destruct (step models table l s) as [s1 |] eqn:Hstep; [| discriminate].
    destruct (step_occurs l Hwf Hstep) as [Hoc Hwf1].
    destruct (occurs_view Hoc Hp Hr) as [Hp1 Hr1].
    apply (IH s1 s' Hwf1 Hp1 Hr1 Hsteps).
Qed.

Lemma reachable_view (models : list ModelInfo) (table : list string)
    (ls : list Label) (s : Sys) :
  steps models table ls (initialSys models) = Some s ->
  captured_has_path (app (machine s)) /\
  none_or_three_rows table (app (machine s)).
Proof.
  apply steps_view.
  - apply initial_scheduled.
  - intro H. discriminate H.
  - now left.
Qed.

Lemma three_rows (table : list string) (classes : list ClassInfo) :
  List.length classes = 3 ->
  Forall (is_row table) classes ->
  exists o0 o1 o2,
    classes = [classRow table o0; classRow table o1; classRow table o2].
Proof.
  intros Hlen Hrows.
  destruct classes as [| c0 [| c1 [| c2 [| c3 rest]]]]; try discriminate.
  inversion Hrows as [| ? ? [o0 ->] Hrows1]; subst.
  inversion Hrows1 as [| ? ? [o1 ->] Hrows2]; subst.
  inversion Hrows2 as [| ? ? [o2 ->] _]; subst.
  now exists o0, o1, o2.
Qed.

(** ** Every render, setter by setter *)

Lemma rendered_from_app (st : AppState) (tr1 tr2 : list Event) :
  rendered_from st (tr1 ++ tr2) =
  rendered_from st tr1 ++ rendered_from (settle st tr1) tr2.
Proof.
  revert st. induction tr1 as [| [a | c] tr1 IH]; intro st; simpl.
  - reflexivity.
  - now rewrite IH.
  - apply IH.
Qed.

Lemma settle_app (st : AppState) (tr1 tr2 : list Event) :
  settle st (tr1 ++ tr2) = settle (settle st tr1) tr2.
Proof.
  revert st. induction tr1 as [| [a | c] tr1 IH]; intro st; simpl;
    [reflexivity | apply IH | apply IH].
Qed.

Lemma update_well_rendered (table : list string) (a : Action)
    (st : AppState) :
  well_rendered table st -> writes_well table a ->
  well_rendered table (update a st).
Proof.
  intros [Hp Hr] Ha.
  destruct a; simpl in *; split; assumption.
Qed.

Lemma renders_well_perform (models : list ModelInfo) (table : list string)
    (a : Action) (m : Machine) :
  renders_well models table m -> writes_well table a ->
  renders_well models table (perform a m).
Proof.
  intros (Happ & Hall & Hnow) Ha. unfold renders_well.
  rewrite log_perform, app_perform, settle_app, rendered_from_app, <- Happ.
  pose proof (@update_well_rendered table a (app m) Hnow Ha) as Hnext.
  split; [reflexivity |]. split; [| exact Hnext].
  apply Forall_app. split; [exact Hall |].
  simpl. constructor; [exact Hnext | constructor].
Qed.

Lemma renders_well_record (models : list ModelInfo) (table : list string)
    (c : Call) (m : Machine) :
  renders_well models table m ->
  renders_well models table (record (EvCall c) m).
Proof.
  intros (Happ & Hall & Hnow). unfold renders_well.
  change (log (record (EvCall c) m)) with (log m ++ [EvCall c]).
  change (app (record (EvCall c) m)) with (app m).
  rewrite settle_app, rendered_from_app, <- Happ. simpl.
  rewrite app_nil_r. split; [reflexivity |]. split; assumption.
Qed.

Lemma renders_well_alertClosed (models : list ModelInfo)
    (table : list string) (m : Machine) :
  renders_well models table m ->
  renders_well models table (alertClosed m).
Proof. intro H. exact H. Qed.

Lemma occurs_renders_well (models : list ModelInfo) (table : list string)
    (l : Label) (s s' : Sys) :
  occurs models table l s s' ->
  renders_well models table (machine s) ->
  renders_well models table (machine s').
Proof.
  intros Hoc Hm.
  destruct Hoc; cbn [machine]; unfold call_of;
    try (destruct (onPress b));
    repeat
      match goal with
      | |- renders_well _ _ (machine _) => exact Hm
      | |- renders_well _ _ (alertClosed _) => apply renders_well_alertClosed
      | |- renders_well _ _ (record _ _) => apply renders_well_record
      | |- renders_well _ _ (perform _ _) => apply renders_well_perform
      end;
    cbn [writes_well]; try exact I;
    try solve [now left | right; eexists; reflexivity].
  (* the third row *)
  right. split.
  - rewrite length_app. simpl. lia.
  - apply Forall_app. split; [assumption |].
    constructor; [now exists out | constructor].
Qed.

Lemma steps_renders_well (models : list ModelInfo) (table : list string) :
  forall ls s s',
    scheduled models table s ->
    renders_well models table (machine s) ->
    steps models table ls s = Some s' ->
    renders_well models table (machine s').
Proof.
  induction ls as [| l ls IH]; intros s s' Hwf Hm Hsteps; simpl in Hsteps.
  - injection Hsteps as <-. exact Hm.
  - destruct (step models table l s) as [s1 |] eqn:Hstep; [| discriminate].
    destruct (step_occurs l Hwf Hstep) as [Hoc Hwf1].
    exact (IH s1 s' Hwf1 (@occurs_renders_well models table l s s1 Hoc Hm) Hsteps).
Qed.

Lemma initial_well_rendered (models : list ModelInfo) (table : list string) :
  well_rendered table (initialState models).
Proof. split; now left. Qed.

Lemma reachable_renders_well (models : list ModelInfo)
    (table : list string) (ls : list Label) (s : Sys) :
  steps models table ls (initialSys models) = Some s ->
  renders_well models table (machine s).
Proof.
  apply steps_renders_well.
  - apply initial_scheduled.
  - split; [reflexivity |]. split; [constructor |].
    apply initial_well_rendered.
Qed.

Lemma rendered_well (models : list ModelInfo) (table : list string)
    (ls : list Label) (s : Sys) (st : AppState) :
  steps models table ls (initialSys models) = Some s ->
  In st (rendered models s) ->
  well_rendered table st.
Proof.
  intros Hsteps Hin.
  destruct (@reachable_renders_well models table ls s Hsteps) as (_ & Hall & _).
  destruct Hin as [<- | Hin].
  - apply initial_well_rendered.
  - rewrite Forall_forall in Hall. exact (Hall st Hin).
Qed.

(** The state in which the handlers are parked is the last one rendered. *)
Lemma settle_last (tr : list Event) :
  forall (d st : AppState),
    last (st :: rendered_from st tr) d = settle st tr.
Proof.
  induction tr as [| [a | c] tr IH]; intros d st.
  - reflexivity.
  - cbn [rendered_from settle]. rewrite <- (IH d (update a st)).
    reflexivity.
  - cbn [rendered_from settle]. apply IH.
Qed.

(** X9: the photo on the result screen, render by render.  The image path
    of every state the running app renders is empty or a [file://] URI.  A
    render with the screen Captured shows the Return button first and the
    Submit button last, the activity indicator or the result text before
    Submit, and the captured image, with its URI and the target
    resolution, in second place when the path is not empty; when it is
    empty (between [setIsCaptured(true)] and [setCurrImage(imagePath)], and
    between [setCurrImage('')] and [setIsCaptured(false)]) no image is
    shown.  The state in which the handlers are parked is the last one
    rendered, and when its screen is Captured its path is a [file://] URI,
    so the photo is on show. *)
Theorem photo_shown_once_path_is_set (models : list ModelInfo)
    (table : list string) (ls : list Label) (s : Sys) :
  steps models table ls (initialSys models) = Some s ->
  (forall st, In st (rendered models s) ->
     path_empty_or_file st /\
     (isCaptured st = true ->
      exists body,
        (body = ActivityIndicator \/ exists lines, body = ClassesText lines) /\
        ((currImage st = EmptyString /\
          render models st = [ReturnButton; body; SubmitButton]) \/
         (exists path,
            currImage st = ("file://" ++ path)%string /\
            render models st =
              [ ReturnButton;
                CapturedImage targetResolution ("file://" ++ path)%string;
                body;
                SubmitButton ])))) /\
  last (rendered models s) (initialState models) = app (machine s) /\
  (isCaptured (app (machine s)) = true ->
   exists path,
     currImage (app (machine s)) = ("file://" ++ path)%string /\
     nth_error (render models (app (machine s))) 1 =
       Some (CapturedImage targetResolution ("file://" ++ path)%string)).
Proof.
  intro Hsteps. split; [| split].
  - intros st Hin.
    destruct (@rendered_well models table ls s st Hsteps Hin) as [Hp _].
    split; [exact Hp |]. intro Hc.
    exists (match js_index (classesInfo st) 0 with
            | None => ActivityIndicator
            | Some _ => ClassesText (classLines 0 (classesInfo st))
            end).
    split.
    + destruct (js_index (classesInfo st) 0); [right; eauto | now left].
    + unfold render. rewrite Hc.
      destruct Hp as [Hnil | [path Hpath]].
      * left. rewrite Hnil. split; reflexivity.
      * right. exists path. rewrite Hpath. split; reflexivity.
  - destruct (@reachable_renders_well models table ls s Hsteps) as (Happ & _ & _).
    rewrite Happ. apply settle_last.
  - intro Hc.
    destruct (@reachable_view models table ls s Hsteps) as [Hp _].
    destruct (Hp Hc) as [path Hpath].
    exists path. split; [exact Hpath |].
    unfold render. rewrite Hc, Hpath. reflexivity.
Qed.

Lemma photo_shown_once_path_is_set_witness :
  exists s,
    steps sampleModels sampleClasses fileWritten (initialSys sampleModels) =
      Some s /\
    In betweenSetters (rendered sampleModels s) /\
    isCaptured betweenSetters = true /\
    render sampleModels betweenSetters =
      [ReturnButton; ActivityIndicator; SubmitButton] /\
    render sampleModels (app (machine s)) =
      [ ReturnButton;
        CapturedImage targetResolution "file:///tmp/photo.png";
        ActivityIndicator;
        SubmitButton ].
Proof.
  destruct (steps sampleModels sampleClasses fileWritten
              (initialSys sampleModels)) as [s |] eqn:Hs;
    [| discriminate Hs].
  exists s.
  assert (Hin : In betweenSetters (rendered sampleModels s))
    by (injection Hs as <-; right; left; reflexivity).
  assert (Hlast : render sampleModels (app (machine s)) =
                  [ ReturnButton;
                    CapturedImage targetResolution "file:///tmp/photo.png";
                    ActivityIndicator;
                    SubmitButton ])
    by (injection Hs as <-; reflexivity).
  split; [reflexivity |]. split; [exact Hin |]. split; [reflexivity |].
  split; [| exact Hlast].
  destruct (@photo_shown_once_path_is_set sampleModels sampleClasses
              fileWritten s Hs) as (H & _ & _).
  destruct (H betweenSetters Hin) as (_ & Hview).
  destruct (Hview eq_refl) as (body & _ & [[_ Hr] | (path & Hp & _)]).
  - reflexivity.
  - discriminate Hp.
Defined.

(** X10: the result list is rendered whole or not at all.  In every state
    the running app renders, the result list is empty or holds exactly
    three rows, each labelled by the class table.  So a render with the
    screen Captured shows, after the Return button and the photo (if the
    path is set) and before the Submit button, either the activity
    indicator or a text of exactly three lines, keyed 0, 1, 2 in list
    order, each with the label and the confidence of its row.  A partial
    list is never rendered. *)
Theorem rows_rendered_whole_or_not_at_all (models : list ModelInfo)
    (table : list string) (ls : list Label) (s : Sys) :
  steps models table ls (initialSys models) = Some s ->
  forall st, In st (rendered models s) ->
    (classesInfo st = [] \/
     exists c0 c1 c2 o0 o1 o2,
       classesInfo st = [c0; c1; c2] /\
       Forall2
         (fun o c =>
            className c = js_index table (res_maxIdx o) /\
            metrics c = res_metrics o)
         [o0; o1; o2] [c0; c1; c2]) /\
    (isCaptured st = true ->
     exists photo,
       List.length photo <= 1 /\
       ((classesInfo st = [] /\
         render models st =
           ReturnButton :: photo ++ [ActivityIndicator; SubmitButton]) \/
        (exists c0 c1 c2,
           classesInfo st = [c0; c1; c2] /\
           render models st =
             ReturnButton :: photo ++
             [ ClassesText
                 [ {| key := 0; lineClassName := className c0;
                      lineConfidence := confidence c0 |};
                   {| key := 1; lineClassName := className c1;
                      lineConfidence := confidence c1 |};
                   {| key := 2; lineClassName := className c2;
                      lineConfidence := confidence c2 |} ];
               SubmitButton ]))).
Proof.
  intros Hsteps st Hin.
  destruct (@rendered_well models table ls s st Hsteps Hin) as [_ Hr].
  assert (Hrows : classesInfo st = [] \/
                  exists o0 o1 o2,
                    classesInfo st =
                      [classRow table o0; classRow table o1;
                       classRow table o2]).
  { destruct Hr as [Hnil | [Hlen Hrows]]; [now left | right].
    exact (three_rows Hlen Hrows). }
  split.
  - destruct Hrows as [Hnil | (o0 & o1 & o2 & Hcl)]; [now left | right].
    exists (classRow table o0), (classRow table o1), (classRow table o2),
      o0, o1, o2.
    split; [exact Hcl |]. repeat constructor.
  - intro Hc.
    exists (if String.eqb (currImage st) EmptyString then []
            else [CapturedImage targetResolution (currImage st)]).
    split; [destruct (String.eqb (currImage st) EmptyString); simpl; lia |].
    unfold render. rewrite Hc.
    destruct Hrows as [Hnil | (o0 & o1 & o2 & Hcl)].
    + left. rewrite Hnil. split; reflexivity.
    + right.
      exists (classRow table o0), (classRow table o1), (classRow table o2).
      rewrite Hcl. split; reflexivity.
Qed.

Lemma rows_rendered_whole_or_not_at_all_witness :
  exists s,
    steps sampleModels sampleClasses rowsStored (initialSys sampleModels) =
      Some s /\
    In (app (machine s)) (rendered sampleModels s) /\
    isCaptured (app (machine s)) = true /\
    List.length (classesInfo (app (machine s))) = 3 /\
    exists photo lines,
      render sampleModels (app (machine s)) =
        ReturnButton :: photo ++ [ClassesText lines; SubmitButton] /\
      List.length lines = 3.
Proof.
  destruct (steps sampleModels sampleClasses rowsStored
              (initialSys sampleModels)) as [s |] eqn:Hs;
    [| discriminate Hs].
  exists s.
  assert (Hin : In (app (machine s)) (rendered sampleModels s)).
  { injection Hs as <-. vm_compute. do 4 right. left. reflexivity. }
  assert (Hc : isCaptured (app (machine s)) = true)
    by (injection Hs as <-; vm_compute; reflexivity).
  assert (Hlen : List.length (classesInfo (app (machine s))) = 3)
    by (injection Hs as <-; vm_compute; reflexivity).
  split; [reflexivity |]. split; [exact Hin |]. split; [exact Hc |].
  split; [exact Hlen |].
  destruct (@rows_rendered_whole_or_not_at_all sampleModels sampleClasses
              rowsStored s Hs (app (machine s)) Hin) as (_ & Hview).
  destruct (Hview Hc)
    as (photo & _ & [[Hnil _] | (c0 & c1 & c2 & _ & Hr)]).
  - rewrite Hnil in Hlen. discriminate Hlen.
  - exists photo. eexists. split; [exact Hr | reflexivity].
Defined.

(** X11: a capture whose classification fails leaves the result screen
    loading.  Started in LivePreview with an empty result list, a capture
    whose file is written but whose classifier rejects ends with the view
    showing the Return button, the photo, the activity indicator and the
    Submit button, and nothing in the handler will replace the
    indicator. *)
Theorem failed_capture_keeps_loading (models : list ModelInfo)
    (table : list string) (w : World) (img : Image) (m : Machine)
    (path : string) :
  toFile_result w img = Some path ->
  ~ (forall i, i < 3 -> answers models w img i) ->
  classesInfo (app m) = [] ->
  fst (run w (handleCapture models table img) m) = None /\
  render models (app (snd (run w (handleCapture models table img) m))) =
    [ ReturnButton;
      CapturedImage targetResolution ("file://" ++ path)%string;
      ActivityIndicator;
      SubmitButton ].
Proof.
  intros Hf Hno Hnil.
  destruct (@handleCapture_classifier_rejects models table w img m path
              Hf Hno)
    as (Hres & Hc & Hpath & Hcl & _).
  split; [exact Hres |].
  unfold render. rewrite Hc, Hpath, Hcl, Hnil. reflexivity.
Qed.

Lemma failed_capture_keeps_loading_witness :
  toFile_result failingWorld 7 = Some "/tmp/photo.png"%string /\
  ~ (forall i, i < 3 -> answers sampleModels failingWorld 7 i) /\
  classesInfo (app sampleMachine) = [] /\
  render sampleModels
    (app (snd (run failingWorld (handleCapture sampleModels sampleClasses 7)
                 sampleMachine))) =
    [ ReturnButton;
      CapturedImage targetResolution "file:///tmp/photo.png";
      ActivityIndicator;
      SubmitButton ].
Proof.
  assert (Hno : ~ (forall i, i < 3 -> answers sampleModels failingWorld 7 i)).
  { intro H. destruct (H 0) as (mi & out & _ & E); [lia |]. discriminate E. }
  split; [reflexivity |]. split; [exact Hno |]. split; [reflexivity |].
  exact (proj2 (@failed_capture_keeps_loading sampleModels sampleClasses
                  failingWorld 7 sampleMachine _ eq_refl Hno eq_refl)).
Defined.

(** ** Rounding keeps the ranking *)



(** ** Line 124 in binary64 arithmetic *)

(** [round64] against hardware arithmetic.  On the sample doubles, the
    product with 1000 and the quotient by 10 computed by the prover's own
    binary64 numbers have exactly the values [round64] gives; so has the
    quotient by 10 of every count of tenths, the product with 1000 of 400
    confidences spread over (0, 1), and line 124 as a whole on these; and
    the double nearest to 0.0045 is [c0045]. *)
Lemma round64_matches_hardware_on_samples :
  forallb (fun a => agree_mul a (double 1000 0)) sampleDoubles = true /\
  forallb (fun a => agree_div a (double 10 0)) sampleDoubles = true /\
  forallb (fun k => agree_div (double k 0) (double 10 0)) tenthCounts = true /\
  forallb (fun a => agree_mul a (double 1000 0)) (spread 400 1) = true /\
  forallb agree_percent (double 5188146770730811 (-60) :: spread 400 1) =
    true /\
  Qeq_bool (value64 (double 5188146770730811 (-60))) c0045 = true.
Proof. vm_compute. repeat split. Qed.

Lemma round_even_close (q : Q) :
  (Qabs (inject_Z (round_even q) - q) <= 1 # 2)%Q.
Proof.
  unfold round_even.
  pose proof (Qfloor_le q) as Hle.
  pose proof (Qlt_floor q) as Hlt.
  rewrite inject_Z_plus in Hlt. change (inject_Z 1) with 1%Q in Hlt.
  destruct (q - inject_Z (Qfloor q) ?= 1 # 2)%Q eqn:Hcmp.
  - apply Qeq_alt in Hcmp.
    destruct (Z.even (Qfloor q)).
    + apply Qabs_case; intros _; lra.
    + rewrite inject_Z_plus. change (inject_Z 1) with 1%Q.
      apply Qabs_case; intros _; lra.
  - apply Qlt_alt in Hcmp. apply Qabs_case; intros _; lra.
  - apply Qgt_alt in Hcmp.
    rewrite inject_Z_plus. change (inject_Z 1) with 1%Q.
    apply Qabs_case; intros _; lra.
Qed.

Lemma round_even_nonneg (q : Q) : (0 <= q)%Q -> (0 <= round_even q)%Z.
Proof.
  intro Hq. unfold round_even.
  assert (Hf : (0 <= Qfloor q)%Z).
  { assert (H : (Qfloor 0 <= Qfloor q)%Z) by (apply Qfloor_resp_le; exact Hq).
    exact H. }
  destruct (q - inject_Z (Qfloor q) ?= 1 # 2)%Q; [| lia | lia].
  destruct (Z.even (Qfloor q)); lia.
Qed.

Lemma pow2_pos (e : Z) : (0 < 2 ^ e)%Q.
Proof. apply Qpower_0_lt. reflexivity. Qed.

Lemma pow2_le (a b : Z) : (a <= b)%Z -> (2 ^ a <= 2 ^ b)%Q.
Proof. intro H. apply Qpower_le_compat_l; [exact H | discriminate]. Qed.

(** A rounded value is within half a unit in the last place. *)
Lemma round64_close (x : Q) :
  (Qabs (round64 x - x) <= 2 ^ ulp_exp x * (1 # 2))%Q.
Proof.
  unfold round64.
  pose proof (pow2_pos (ulp_exp x)) as Hu.
  destruct (Qeq_bool x 0) eqn:Hz.
  - apply Qeq_bool_iff in Hz.
    apply Qabs_case; intros _; lra.
  - set (u := (2 ^ ulp_exp x)%Q) in *.
    pose proof (round_even_close (x / u)) as Hr.
    assert (Hx : (x == x / u * u)%Q) by (field; lra).
    set (y := (x / u)%Q) in *.
    set (k := inject_Z (round_even y)) in *.
    apply Qabs_Qle_condition in Hr. destruct Hr as [Hr1 Hr2].
    apply Qabs_Qle_condition. split; nra.
Qed.

Lemma round64_nonneg (x : Q) : (0 <= x)%Q -> (0 <= round64 x)%Q.
Proof.
  intro Hx. unfold round64.
  destruct (Qeq_bool x 0); [lra |].
  pose proof (pow2_pos (ulp_exp x)) as Hu.
  assert (Hq : (0 <= x / 2 ^ ulp_exp x)%Q).
  { apply Qle_shift_div_l; [exact Hu | lra]. }
  pose proof (@round_even_nonneg _ Hq) as Hk.
  assert (Hk' : (0 <= inject_Z (round_even (x / 2 ^ ulp_exp x)))%Q).
  { change 0%Q with (inject_Z 0). now rewrite <- Zle_Qle. }
  nra.
Qed.

Lemma Qabs_nonneg_eq (x : Q) : (0 <= x)%Q -> Qabs x = x.
Proof.
  destruct x as [n d]. unfold Qle. simpl. intro H.
  rewrite Z.abs_eq; [reflexivity | lia].
Qed.

(** Below [2 ^ n] the exponent of the last place is at most [n - 53]. *)
Lemma ulp_exp_below (x : Q) (n : Z) :
  (1 <= n)%Z ->
  (0 <= x)%Q -> (x < inject_Z (2 ^ n))%Q ->
  (ulp_exp x <= n - 53)%Z.
Proof.
  intros Hn H0 Hx. unfold ulp_exp.
  rewrite (@Qabs_nonneg_eq x H0).
  apply Z.max_lub; [| lia].
  unfold ilog2. destruct (Qle_bool 1 x) eqn:H1.
  - apply Qle_bool_iff in H1.
    assert (Hf1 : (1 <= Qfloor x)%Z).
    { assert (H : (Qfloor 1 <= Qfloor x)%Z) by (apply Qfloor_resp_le; exact H1).
      exact H. }
    assert (Hf2 : (Qfloor x < 2 ^ n)%Z).
    { pose proof (Qfloor_le x) as Hle.
      rewrite Zlt_Qlt. lra. }
    assert (Hlog : (Z.log2 (Qfloor x) < n)%Z).
    { apply Z.log2_lt_pow2; lia. }
    lia.
  - pose proof (Z.log2_up_nonneg (Qceiling (/ x))). lia.
Qed.

(** What line 124 yields in binary64 for a confidence between 0 and 1. *)
Lemma percent64_spec (c : Q) :
  (0 <= c <= 1)%Q -> binary64_percentage c (percent64 c).
Proof.
  intros [Hc0 Hc1]. unfold percent64.
  set (x := (c * 1000)%Q).
  assert (Hx0 : (0 <= x)%Q) by (unfold x; lra).
  assert (Hx1 : (x < inject_Z (2 ^ 10))%Q).
  { change (inject_Z (2 ^ 10)) with 1024%Q. unfold x. lra. }
  pose proof (round64_close x) as Hp.
  pose proof (@round64_nonneg x Hx0) as Hp0.
  assert (Hu : (2 ^ ulp_exp x <= 2 ^ (-43))%Q).
  { apply pow2_le. apply (@ulp_exp_below x 10); [lia | exact Hx0 | exact Hx1]. }
  set (p := round64 x) in *.
  pose proof (Math_round_close p) as Hk.
  set (k := Math_round p) in *.
  apply Qabs_Qle_condition in Hp. destruct Hp as [Hp1 Hp2].
  apply Qabs_Qle_condition in Hk. destruct Hk as [Hk1 Hk2].
  assert (E43 : (2 ^ (-43) == 1 # 8796093022208)%Q) by reflexivity.
  assert (E44 : (2 ^ (-44) == 1 # 17592186044416)%Q) by reflexivity.
  assert (E46 : (2 ^ (-46) == 1 # 70368744177664)%Q) by reflexivity.
  assert (Hkx : (Qabs (inject_Z k - 1000 * c) <= (1 # 2) + 2 ^ (-44))%Q).
  { apply Qabs_Qle_condition. unfold x in *. split; lra. }
  assert (Hk0 : (0 <= k)%Z).
  { unfold k, Math_round.
    assert (H : (Qfloor 0 <= Qfloor (p + (1 # 2)))%Z)
      by (apply Qfloor_resp_le; lra).
    exact H. }
  assert (Hk1000 : (k <= 1000)%Z).
  { unfold k, Math_round.
    assert (H : (Qfloor (p + (1 # 2)) <= Qfloor (1000 + (3 # 4)))%Z)
      by (apply Qfloor_resp_le; unfold x in *; lra).
    exact H. }
  assert (Hki0 : (0 <= inject_Z k)%Q).
  { change 0%Q with (inject_Z 0). now rewrite <- Zle_Qle. }
  set (y := (inject_Z k / 10)%Q).
  assert (Hy : (y == inject_Z k * (1 # 10))%Q) by reflexivity.
  assert (Hy0 : (0 <= y)%Q) by lra.
  pose proof (round64_close y) as Hr.
  pose proof (@round64_nonneg y Hy0) as Hr0.
  exists k. split; [lia |]. split; [reflexivity |]. split; [exact Hkx |].
  apply Qabs_Qle_condition in Hkx. destruct Hkx as [Hkx1 Hkx2].
  assert (Hcases : (k = 1000 \/ k <= 999)%Z) by lia.
  destruct Hcases as [Hmax | Hlow].
  - (* the top of the scale *)
    assert (Hy100 : (round64 y == 100)%Q).
    { unfold y. rewrite Hmax. vm_compute. reflexivity. }
    rewrite Hy100.
    assert (Hki : (inject_Z k == 1000)%Q) by (rewrite Hmax; reflexivity).
    split; [split; lra |].
    apply Qabs_Qle_condition. split; lra.
  - assert (Hki : (inject_Z k <= 999)%Q).
    { change 999%Q with (inject_Z 999). now rewrite <- Zle_Qle. }
    assert (Hy1 : (y < inject_Z (2 ^ 7))%Q).
    { change (inject_Z (2 ^ 7)) with 128%Q. lra. }
    assert (Hu2 : (2 ^ ulp_exp y <= 2 ^ (-46))%Q).
    { apply pow2_le. apply (@ulp_exp_below y 7); [lia | exact Hy0 | exact Hy1]. }
    apply Qabs_Qle_condition in Hr. destruct Hr as [Hr1 Hr2].
    split; [split; lra |].
    apply Qabs_Qle_condition. split; lra.
Qed.

(** The binary64 classifier against three models that all answer. *)
Lemma run_classifier64 (models : list ModelInfo) (table : list string)
    (w : World) (image : Image) (m : Machine)
    (mi0 mi1 mi2 : ModelInfo) (o0 o1 o2 : ExecuteOutput) :
  nth_error models 0 = Some mi0 ->
  nth_error models 1 = Some mi1 ->
  nth_error models 2 = Some mi2 ->
  execute_result w (model mi0) image = Some o0 ->
  execute_result w (model mi1) image = Some o1 ->
  execute_result w (model mi2) image = Some o2 ->
  run w (classifier64 models table image) m =
  (Some [classRow64 table o0; classRow64 table o1; classRow64 table o2],
   record (EvCall (MobileModel_execute (model mi2) image))
     (record (EvCall (MobileModel_execute (model mi1) image))
        (record (EvCall (MobileModel_execute (model mi0) image)) m))).
Proof.
  intros H0 H1 H2 E0 E1 E2.
  unfold classifier64. cbn [classifier_loop64].
  rewrite H0. cbn [run]. rewrite E0. cbn [classifier_loop64].
  rewrite H1. cbn [run]. rewrite E1. cbn [classifier_loop64].
  rewrite H2. cbn [run]. rewrite E2. reflexivity.
Qed.

(** The two evaluations of line 124 change nothing else: the binary64
    classifier makes the same calls, resolves or rejects in the same cases
    and leaves the same machine as [classifier], and its rows carry the
    same labels and metrics. *)
Lemma classifier_loop64_shadows (models : list ModelInfo)
    (table : list string) (w : World) (image : Image) :
  forall todo i classes64 classes m,
    Forall2 (fun a b => className a = className b /\ metrics a = metrics b)
      classes64 classes ->
    snd (run w (classifier_loop64 models table todo i image classes64) m) =
    snd (run w (classifier_loop models table todo i image classes) m) /\
    match fst (run w (classifier_loop64 models table todo i image classes64) m),
          fst (run w (classifier_loop models table todo i image classes) m)
    with
    | Some rows64, Some rows =>
        Forall2 (fun a b => className a = className b /\ metrics a = metrics b)
          rows64 rows
    | None, None => True
    | _, _ => False
    end.
Proof.
  induction todo as [| todo IH]; intros i classes64 classes m Hrel;
    cbn [classifier_loop64 classifier_loop].
  - split; [reflexivity | exact Hrel].
  - destruct (nth_error models i) as [mi |]; cbn [run fst snd].
    + destruct (execute_result w (model mi) image) as [out |];
        cbn [fst snd].
      * apply IH. apply Forall2_app; [exact Hrel |].
        constructor; [split; reflexivity | constructor].
      * split; [reflexivity | exact I].
    + split; [reflexivity | exact I].
Qed.

(** C4 (as the code has it): when each of the first three registered
    models answers with a confidence between 0 and 1, the classifier
    resolves with exactly three rows; it asks the models in registry order
    and row [i] is built from the answer of model [i].  Its confidence is
    [Math.round(confidence * 1000) / 10] evaluated in binary64: it lies
    between 0 and 100, it is the double nearest to [k / 10] for a whole
    number [k] of tenths, 0 <= k <= 1000, and it is within [1/20 + 2^-46]
    of the percentage [100 * confidence]. *)
Theorem classifier64_three_rows (models : list ModelInfo)
    (table : list string) (w : World) (image : Image) (m : Machine) :
  (forall i, i < 3 ->
     exists mi out,
       nth_error models i = Some mi /\
       execute_result w (model mi) image = Some out /\
       (0 <= res_confidence out <= 1)%Q) ->
  exists classes tr m',
    run w (classifier64 models table image) m = (Some classes, m') /\
    List.length classes = 3 /\
    List.length tr = 3 /\
    log m' = log m ++ tr /\
    app m' = app m /\
    forall i, i < 3 ->
      exists mi out c,
        nth_error models i = Some mi /\
        execute_result w (model mi) image = Some out /\
        nth_error tr i = Some (EvCall (MobileModel_execute (model mi) image)) /\
        nth_error classes i = Some c /\
        className c = js_index table (res_maxIdx out) /\
        metrics c = res_metrics out /\
        confidence c = percent64 (res_confidence out) /\
        binary64_percentage (res_confidence out) (confidence c).
Proof.
  intro H.
  destruct (H 0) as [mi0 [o0 [H0 [E0 C0]]]]; [lia |].
  destruct (H 1) as [mi1 [o1 [H1 [E1 C1]]]]; [lia |].
  destruct (H 2) as [mi2 [o2 [H2 [E2 C2]]]]; [lia |].
  exists [classRow64 table o0; classRow64 table o1; classRow64 table o2].
  exists [EvCall (MobileModel_execute (model mi0) image);
          EvCall (MobileModel_execute (model mi1) image);
          EvCall (MobileModel_execute (model mi2) image)].
  eexists.
  split; [apply (@run_classifier64 models table w image m
                   mi0 mi1 mi2 o0 o1 o2); assumption |].
  split; [reflexivity |]. split; [reflexivity |].
  split; [simpl; repeat rewrite <- app_assoc; reflexivity |].
  split; [reflexivity |].
  intros i Hi.
  destruct i as [| [| [| i]]]; [| | | lia].
  - exists mi0, o0, (classRow64 table o0).
    repeat (split; [first [assumption | reflexivity] |]).
    now apply percent64_spec.
  - exists mi1, o1, (classRow64 table o1).
    repeat (split; [first [assumption | reflexivity] |]).
    now apply percent64_spec.
  - exists mi2, o2, (classRow64 table o2).
    repeat (split; [first [assumption | reflexivity] |]).
    now apply percent64_spec.
Qed.

Lemma classifier64_three_rows_witness :
  exists classes (tr : list Event) m',
    run sampleWorld (classifier64 sampleModels sampleClasses 7)
      sampleMachine = (Some classes, m') /\
    List.length classes = 3 /\
    List.length tr = 3.
Proof.
  destruct (@classifier64_three_rows sampleModels sampleClasses sampleWorld 7
              sampleMachine sample_models_answer)
    as [classes [tr [m' [Hrun [Hlen [Htr _]]]]]].
  exists classes, tr, m'. repeat split; assumption.
Defined.

(** C4 as stated fails: a model that answers with the double nearest to
    0.0045, a confidence between 0 and 1, gets the row confidence 0.5,
    because the binary64 product with 1000 is exactly 4.5 (the prover's
    own binary64 operations give 0.5 as well).  The percentage is just
    below 0.45, which is 0.4 to one decimal, and 0.5 is more than 1/20
    away from it: the row's confidence is not the percentage rounded to
    one decimal. *)
Lemma tie_rounds_away_from_percentage :
  (0 <= c0045 <= 1)%Q /\
  (round64 (c0045 * 1000) == 9 # 2)%Q /\
  (exists m',
     run tieWorld (classifier64 sampleModels sampleClasses 7) sampleMachine =
       (Some [ classRow64 sampleClasses
                 {| res_maxIdx := 1; res_confidence := c0045;
                    res_metrics := sampleMetrics |};
               classRow64 sampleClasses
                 {| res_maxIdx := 1; res_confidence := c0045;
                    res_metrics := sampleMetrics |};
               classRow64 sampleClasses
                 {| res_maxIdx := 1; res_confidence := c0045;
                    res_metrics := sampleMetrics |} ], m')) /\
  (percent64 c0045 == 1 # 2)%Q /\
  (percentPrim (double 5188146770730811 (-60)) == 1 # 2)%Q /\
  ~ one_decimal_percentage c0045
      (confidence
         (classRow64 sampleClasses
            {| res_maxIdx := 1; res_confidence := c0045;
               res_metrics := sampleMetrics |})).
Proof.
  assert (H : (percent64 c0045 == 1 # 2)%Q) by (vm_compute; reflexivity).
  split; [split; unfold Qle; simpl; lia |].
  split; [vm_compute; reflexivity |].
  split; [eexists; reflexivity |].
  split; [exact H |].
  split; [vm_compute; reflexivity |].
  intros (k & _ & _ & _ & Hclose).
  cbn [confidence classRow64 res_confidence] in Hclose.
  rewrite H in Hclose. apply Qabs_Qle_condition in Hclose.
  destruct Hclose as [_ Hle]. revert Hle. vm_compute. intro Hle. apply Hle.
  reflexivity.
Qed.
